(** * IDFDUT: the esptool-driven serial DUT of tiny-test-fw

    A shallow embedding of [tools/tiny-test-fw/IDF/IDFDUT.py]: the port
    resolver [list_available_ports], the identity probe [get_mac], the
    session wrapper [_uses_esptool] and the operations it wraps
    ([start_app], [reset], [erase_partition], [dump_flush]).

    Python's exceptions are an explicit outcome, the mutable world (listener
    thread, serial line settings, file objects, host file system, the
    device behind esptool) is a record threaded through a small state and
    exception monad, and esptool is an oracle over an abstract device
    state, so that every statement holds for every behaviour of the
    device. *)

From Stdlib Require Import ZArith Ascii String Strings.Byte List Permutation.
From stdpp Require Import base gmap strings list.

Open Scope Z_scope.
Open Scope string_scope.

(** ** Strings as Python uses them *)

Module Str.

(** [s.startswith(p)] *)
Fixpoint startswith (p s : string) : bool :=
  match p, s with
  | EmptyString, _ => true
  | String a p', String b s' => if Ascii.eqb a b then startswith p' s' else false
  | String _ _, EmptyString => false
  end.

(** [sub in s] *)
Fixpoint contains (sub s : string) : bool :=
  startswith sub s ||
  match s with
  | EmptyString => false
  | String _ s' => contains sub s'
  end.

(** [s.endswith(c)] for one character, which is all [join] asks. *)
Fixpoint endswith_char (c : ascii) (s : string) : bool :=
  match s with
  | EmptyString => false
  | String a EmptyString => Ascii.eqb a c
  | String _ s' => endswith_char c s'
  end.

(** [s.replace(old, new)]: the occurrences of [old] are replaced from the
    left and do not overlap; [skip] counts the characters of a replaced
    occurrence still to be dropped.  An empty [old] puts [new] before
    every character and at the end. *)
Fixpoint replace_from (old new : string) (skip : nat) (s : string) : string :=
  match s with
  | EmptyString =>
      match old with EmptyString => new | _ => EmptyString end
  | String c s' =>
      match skip with
      | S k => replace_from old new k s'
      | O =>
          match old with
          | EmptyString => new +:+ String c (replace_from old new O s')
          | String _ old' =>
              if startswith old s
              then new +:+ replace_from old new (String.length old') s'
              else String c (replace_from old new O s')
          end
      end
  end.

Definition replace (old new s : string) : string := replace_from old new O s.

(** [s.split(sep)] for a one-character separator: never empty, and an
    empty field between two separators is kept. *)
Fixpoint split (sep : ascii) (s : string) : list string :=
  match s with
  | EmptyString => [EmptyString]
  | String c s' =>
      if Ascii.eqb c sep then EmptyString :: split sep s'
      else match split sep s' with
           | [] => [String c EmptyString]
           | w :: ws => String c w :: ws
           end
  end.

(** [sep.join(l)] *)
Fixpoint join (sep : string) (l : list string) : string :=
  match l with
  | [] => EmptyString
  | [x] => x
  | x :: l' => x +:+ sep +:+ join sep l'
  end.

End Str.

(** ** The regular expressions the module compiles

    [INVALID_PORT_PATTERN] is an alternation of two literals; [re_search]
    is [pattern.search(s)]: a match may start at any position. *)

Inductive regex : Type :=
| Lit (s : string)
| Alt (r1 r2 : regex).

Fixpoint re_match_here (r : regex) (s : string) : bool :=
  match r with
  | Lit l => Str.startswith l s
  | Alt r1 r2 => re_match_here r1 s || re_match_here r2 s
  end.

Fixpoint re_search (r : regex) (s : string) : bool :=
  re_match_here r s ||
  match s with
  | EmptyString => false
  | String _ s' => re_search r s'
  end.

(** ** Port resolver *)

(** [INVALID_PORT_PATTERN = re.compile(r"AMA|Bluetooth")] *)
Definition INVALID_PORT_PATTERN : regex := Alt (Lit "AMA") (Lit "Bluetooth").

(** [l.remove(x)]: the first occurrence goes; the callers test [x in l]
    first, so the [ValueError] of an absent [x] is never raised and an
    absent [x] leaves the list as it is here. *)
Fixpoint list_remove (x : string) (l : list string) : list string :=
  match l with
  | [] => []
  | y :: l' => if String.eqb x y then l' else y :: list_remove x l'
  end.

(** [x in l] *)
Definition list_in (x : string) (l : list string) : bool :=
  existsb (String.eqb x) l.

(** [list_available_ports]: [comports] is what [list_ports.comports()]
    enumerates (the [device] of each entry), [espport] the value of
    [os.getenv('ESPPORT')] ([None] when unset) and [platform] is
    [sys.platform].  The hint is text already: [decode('utf8')] is the
    identity on it. *)
Definition list_available_ports
    (comports : list string) (espport : option string) (platform : string)
  : list string :=
  let ports := comports in
  match espport with
  | None | Some EmptyString =>
      List.filter (fun x => negb (re_search INVALID_PORT_PATTERN x)) ports
  | Some espport =>
      let port_hint := espport in
      if list_in port_hint ports then
        port_hint :: list_remove port_hint ports
      else if String.eqb platform "darwin" && Str.contains "tty." port_hint then
        let port_hint := Str.replace "tty." "cu." port_hint in
        if list_in port_hint ports then
          port_hint :: list_remove port_hint ports
        else ports
      else ports
  end.

(** ** [os.path] on a POSIX host

    The functions of [posixpath] that [dump_flush] reaches, on strings as
    the library has them.  [cwd] is [os.getcwd()]. *)

Module posixpath.

Definition isabs (s : string) : bool := Str.startswith "/" s.

(** One round of the loop of [join(a, *p)]. *)
Definition join_step (path b : string) : string :=
  if Str.startswith "/" b then b
  else if String.eqb path "" || Str.endswith_char "/" path then path +:+ b
  else path +:+ "/" +:+ b.

Definition join (a : string) (p : list string) : string :=
  fold_left join_step p a.

(** [initial_slashes]: two leading slashes are kept, three or more are
    one. *)
Definition initial_slashes (path : string) : nat :=
  if Str.startswith "/" path then
    if Str.startswith "//" path && negb (Str.startswith "///" path)
    then 2%nat else 1%nat
  else 0%nat.

Definition is_nil {A} (l : list A) : bool :=
  match l with [] => true | _ => false end.

(** The body of the loop of [normpath] over the components. *)
Definition normpath_step (slashes : nat) (new_comps : list string) (comp : string)
  : list string :=
  if String.eqb comp "" || String.eqb comp "." then new_comps
  else if negb (String.eqb comp "..")
          || (Nat.eqb slashes 0 && is_nil new_comps)
          || (negb (is_nil new_comps) && bool_decide (last new_comps = Some ".."))
  then (new_comps ++ [comp])%list
  else if negb (is_nil new_comps) then removelast new_comps
  else new_comps.

Definition normpath (path : string) : string :=
  if String.eqb path "" then "."
  else
    let slashes := initial_slashes path in
    let comps := fold_left (normpath_step slashes) (Str.split "/" path) [] in
    let path := Str.join "/" comps in
    let path := Str.join "" (replicate slashes "/") +:+ path in
    if String.eqb path "" then "." else path.

Definition abspath (cwd path : string) : string :=
  if isabs path then normpath path else normpath (join cwd [path]).

(** [commonprefix] of two component lists. *)
Fixpoint commonprefix (l1 l2 : list string) : list string :=
  match l1, l2 with
  | x :: l1', y :: l2' => if String.eqb x y then x :: commonprefix l1' l2' else []
  | _, _ => []
  end.

Definition nonempty_components (s : string) : list string :=
  List.filter (fun x => negb (String.eqb x "")) (Str.split "/" s).

(** [relpath(path, start)]; [None] is the [ValueError] of an empty
    [path]. *)
Definition relpath (cwd path start : string) : option string :=
  if String.eqb path "" then None
  else
    let start_list := nonempty_components (abspath cwd start) in
    let path_list := nonempty_components (abspath cwd path) in
    let i := length (commonprefix start_list path_list) in
    let rel_list := (replicate (length start_list - i)%nat ".." ++ drop i path_list)%list in
    match rel_list with
    | [] => Some "."
    | a :: p => Some (join a p)
    end.

End posixpath.

(** ** Python values and exceptions *)

Inductive pyval : Type :=
| PNone
| PBool (b : bool)
| PInt (n : Z)
| PStr (s : string)
| PBytes (b : list byte)
| PObj (id : nat).

(** The exception classes the module meets.  [LibraryError] is any other
    class of a library, with whether it derives from [RuntimeError]. *)
Inductive exn : Type :=
| RuntimeError (msg : string)
| FatalError (msg : string)
| NotImplementedError
| IDFToolError (msg : string)
| IOError (msg : string)
| KeyError (key : string)
| ValueError (msg : string)
| TypeError (msg : string)
| UnboundLocalError (var : string)
| LibraryError (cls : string) (runtime_error : bool).

(** [isinstance(e, RuntimeError)]: [esptool.FatalError] and
    [NotImplementedError] derive from it, [IDFToolError] derives from
    [OSError]. *)
Definition isinstance_RuntimeError (e : exn) : bool :=
  match e with
  | RuntimeError _ | FatalError _ | NotImplementedError => true
  | LibraryError _ b => b
  | _ => false
  end.

Definition is_IDFToolError (e : exn) : bool :=
  match e with IDFToolError _ => true | _ => false end.

Inductive outcome (A : Type) : Type :=
| Return (a : A)
| Raise (e : exn).
Arguments Return {A} a.
Arguments Raise {A} e.

Definition returns {A} (r : outcome A) : bool :=
  match r with Return _ => true | Raise _ => false end.

(** ** The application under test (IDFApp, supplied by the harness) *)

Record partition : Type := {
  part_offset : string;   (* partition["offset"]: text, read with int(.., 0) *)
  part_size : Z           (* partition["size"] *)
}.

Record IDFApp : Type := {
  flash_files : list (pyval * string);      (* (offs, path) *)
  partition_table : gmap string partition;
  flash_settings : gmap string pyval;
  get_log_folder : string
}.

Record IDFDUT : Type := {
  name : string;
  port : string;
  app : IDFApp
}.

(** [write_flash_args], the namedtuple handed to [esptool.write_flash];
    a data source is the index of its file object. *)
Record Flash_Args : Type := {
  flash_size : pyval;
  flash_mode : pyval;
  flash_freq : pyval;
  addr_filename : list (pyval * nat);
  no_stub : bool;
  compress : bool;
  verify : bool;
  encrypt : bool
}.

(** ** esptool

    Every use of esptool is a [call]; the calls on an object carry the
    object.  [write_flash] also carries what its sources hold, which is
    all it does with them. *)
Inductive call : Type :=
| ESP32ROM (port : string + unit)    (* a port name, or self.port_inst *)
| connect (rom : pyval) (mode : option string)
| run_stub (rom : pyval)
| read_mac (rom : pyval)
| change_baud (esp : pyval) (baud : Z)
| write_flash (esp : pyval) (args : Flash_Args) (images : list (pyval * list byte))
| read_flash (esp : pyval) (address size : pyval)
| hard_reset (esp : pyval).

(** ** The world *)

Record file_obj : Type := {
  f_name : option string;   (* the file behind an object opened for writing *)
  f_data : list byte;
  f_pos : nat;
  f_closed : nat            (* how many times close() ran *)
}.

(** A file object after one more [close()]. *)
Definition closed_once (f : file_obj) : file_obj :=
  {| f_name := f_name f; f_data := f_data f; f_pos := f_pos f;
     f_closed := S (f_closed f) |}.

Record serial_obj : Type := {
  s_port : string;
  s_closed : nat
}.

Record world {Settings D : Type} : Type := {
  listening : bool;                 (* the receive thread runs *)
  line : Settings;                  (* the settings of self.port_inst *)
  device : D;                       (* whatever esptool talks to *)
  cwd : string;
  fs : gmap string (list byte);     (* host files, by absolute path *)
  files : list file_obj;            (* file objects, by creation order *)
  serials : list serial_obj;        (* serial objects esptool opened by name *)
  calls : list call                 (* the esptool calls so far *)
}.
Arguments world : clear implicits.

(** The operations the session manager wraps, with their arguments. *)
Inductive control_op : Type :=
| op_start_app (erase_nvs : bool)
| op_reset
| op_erase_partition (partition : string)
| op_dump_flush (output_file : string) (kwargs : gmap string pyval).

(** ** The state and exception monad *)

Section Semantics.

Context {Settings D : Type}.

(** esptool, as a function of the call, the line settings and the
    device: it answers or raises, and may leave other settings behind
    (a changed baud rate). *)
Variable esptool : call -> Settings * D -> outcome pyval * (Settings * D).

(** The builtin [int(s, 0)]; [None] is its [ValueError]. *)
Variable int_base0 : string -> option Z.

Abbreviation World := (world Settings D).

Definition M (A : Type) : Type := World -> outcome A * World.

Definition ret {A} (a : A) : M A := fun w => (Return a, w).

Definition raise {A} (e : exn) : M A := fun w => (Raise e, w).

Definition bind {A B} (m : M A) (k : A -> M B) : M B :=
  fun w =>
    match m w with
    | (Return a, w') => k a w'
    | (Raise e, w') => (Raise e, w')
    end.

Notation "x <- m ;; k" := (bind m (fun x => k))
  (at level 100, m at next level, right associativity).
Notation "m ;;; k" := (bind m (fun _ => k))
  (at level 100, right associativity).

(** [try: body finally: fin]: [fin] runs however [body] ends, and what
    [fin] raises replaces the outcome of [body]. *)
Definition try_finally {A} (body : M A) (fin : M unit) : M A :=
  fun w =>
    let '(r, w1) := body w in
    match fin w1 with
    | (Return _, w2) => (r, w2)
    | (Raise e, w2) => (Raise e, w2)
    end.

(** [d[k]] on a dict with text keys. *)
Definition getitem {V} (d : gmap string V) (k : string) : M V :=
  match d !! k with
  | Some v => ret v
  | None => raise (KeyError k)
  end.

(** *** The listener and the serial line (DUT.SerialDUT, pySerial) *)

(** Modelled from the spec: [stop_receive] of the base class, which is
    not in this file, stops the background listener. *)
Definition stop_receive : M unit :=
  fun w => (Return tt,
    {| listening := false; line := line w; device := device w; cwd := cwd w;
       fs := fs w; files := files w; serials := serials w; calls := calls w |}).

(** Modelled from the spec: [start_receive] of the base class restarts
    the background listener. *)
Definition start_receive : M unit :=
  fun w => (Return tt,
    {| listening := true; line := line w; device := device w; cwd := cwd w;
       fs := fs w; files := files w; serials := serials w; calls := calls w |}).

Definition get_settings : M Settings := fun w => (Return (line w), w).

Definition apply_settings (s : Settings) : M unit :=
  fun w => (Return tt,
    {| listening := listening w; line := s; device := device w; cwd := cwd w;
       fs := fs w; files := files w; serials := serials w; calls := calls w |}).

(** One esptool call: logged, answered by the oracle. *)
Definition esptool_do (c : call) : M pyval :=
  fun w =>
    let '(r, (s', d')) := esptool c (line w, device w) in
    (r, {| listening := listening w; line := s'; device := d'; cwd := cwd w;
           fs := fs w; files := files w; serials := serials w;
           calls := (calls w ++ [c])%list |}).

(** *** File objects *)

Definition set_files (fl : list file_obj) (w : World) : World :=
  {| listening := listening w; line := line w; device := device w; cwd := cwd w;
     fs := fs w; files := fl; serials := serials w; calls := calls w |}.

Definition set_fs (m : gmap string (list byte)) (w : World) : World :=
  {| listening := listening w; line := line w; device := device w; cwd := cwd w;
     fs := m; files := files w; serials := serials w; calls := calls w |}.

Definition new_file (f : file_obj) : M nat :=
  fun w => (Return (length (files w)), set_files (files w ++ [f])%list w).

(** [open(path, "rb")]: a missing file is an [IOError]. *)
Definition open_rb (path : string) : M nat :=
  fun w =>
    match fs w !! posixpath.abspath (cwd w) path with
    | Some data =>
        new_file {| f_name := None; f_data := data; f_pos := 0; f_closed := 0 |} w
    | None => (Raise (IOError path), w)
    end.

(** [open(path, "wb")]: the file is created or emptied; its directory
    is taken to exist. *)
Definition open_wb (path : string) : M nat :=
  fun w =>
    let p := posixpath.abspath (cwd w) path in
    new_file {| f_name := Some p; f_data := []; f_pos := 0; f_closed := 0 |}
             (set_fs (<[p := []]> (fs w)) w).

(** [tempfile.TemporaryFile()] *)
Definition TemporaryFile : M nat :=
  new_file {| f_name := None; f_data := []; f_pos := 0; f_closed := 0 |}.

Definition write_at (pos : nat) (b data : list byte) : list byte :=
  (take pos data ++ b ++ drop (pos + length b) data)%list.

(** [f.write(b)] *)
Definition f_write (h : nat) (b : list byte) : M unit :=
  fun w =>
    (Return tt,
     set_files (alter (fun f => {| f_name := f_name f;
                                   f_data := write_at (f_pos f) b (f_data f);
                                   f_pos := f_pos f + length b;
                                   f_closed := f_closed f |}) h (files w)) w).

(** [f.seek(pos)] *)
Definition f_seek (h : nat) (pos : nat) : M unit :=
  fun w =>
    (Return tt,
     set_files (alter (fun f => {| f_name := f_name f; f_data := f_data f;
                                   f_pos := pos; f_closed := f_closed f |}) h (files w)) w).

(** [f.close()]: what was written reaches the file. *)
Definition f_close (h : nat) : M unit :=
  fun w =>
    let w1 :=
      match files w !! h with
      | Some {| f_name := Some p; f_data := data |} => set_fs (<[p := data]> (fs w)) w
      | _ => w
      end in
    (Return tt,
     set_files (alter closed_once h (files w1)) w1).

(** What a reader gets from a source: the bytes from its position on. *)
Definition source_bytes (w : World) (h : nat) : list byte :=
  match files w !! h with
  | Some f => drop (f_pos f) (f_data f)
  | None => []
  end.

(** [b * n] on bytes: nothing for [n <= 0]. *)
Definition bytes_mul (b : list byte) (n : Z) : list byte :=
  concat (replicate (Z.to_nat n) b).

(** *** Serial objects esptool opens by name *)

Definition set_serials (sl : list serial_obj) (w : World) : World :=
  {| listening := listening w; line := line w; device := device w; cwd := cwd w;
     fs := fs w; files := files w; serials := sl; calls := calls w |}.

Definition new_serial (port : string) : M nat :=
  fun w => (Return (length (serials w)),
            set_serials (serials w ++ [{| s_port := port; s_closed := 0 |}])%list w).

(** [serial.close()] *)
Definition serial_close (h : nat) : M unit :=
  fun w =>
    (Return tt,
     set_serials (alter (fun s => {| s_port := s_port s;
                                     s_closed := S (s_closed s) |}) h (serials w)) w).

(** [esptool.ESP32ROM(port)] with a port name: when the constructor
    returns, esptool has opened the port; the loader and its [_port]. *)
Definition ESP32ROM_of_port (port : string) : M (pyval * nat) :=
  rom <- esptool_do (ESP32ROM (inl port)) ;;
  p <- new_serial port ;;
  ret (rom, p).

(** ** Device identity probe *)

(** [get_mac(cls, app, port)].  The local [esp] is bound only once the
    constructor has returned; [finally] reads it either way. *)
Definition get_mac (app : IDFApp) (port : string) : M pyval :=
  fun w =>
    (* try *)
    let '(esp, (r, w1)) :=
      match ESP32ROM_of_port port w with
      | (Raise e, w1) => (None, (Raise e, w1))
      | (Return esp, w1) =>
          (Some esp,
           (esptool_do (connect (fst esp) None) ;;;
            esptool_do (read_mac (fst esp))) w1)
      end in
    (* except RuntimeError: return None *)
    let r :=
      match r with
      | Raise e => if isinstance_RuntimeError e then Return PNone else Raise e
      | Return mac => Return mac
      end in
    (* finally: esp._port.close() *)
    match esp with
    | Some esp => try_finally (fun w => (r, w)) (serial_close (snd esp)) w1
    | None => (Raise (UnboundLocalError "esp"), w1)
    end.

Definition confirm_dut (port : string) (app : IDFApp) : M bool :=
  mac <- get_mac app port ;;
  ret (match mac with PNone => false | _ => true end).

(** ** Control-channel session manager *)

(** [_uses_esptool(func)]: the [handler] it returns, with the arguments
    of the call already given to [func]. *)
Definition _uses_esptool (func : IDFDUT -> pyval -> M pyval) (self : IDFDUT)
  : M pyval :=
  stop_receive ;;;
  settings <- get_settings ;;
  rom <- esptool_do (ESP32ROM (inr tt)) ;;
  esptool_do (connect rom (Some "hard_reset")) ;;;
  esp <- esptool_do (run_stub rom) ;;
  ret_ <- func self esp ;;
  apply_settings settings ;;;
  start_receive ;;;
  ret ret_.

(** ** Flash orchestrator *)

Definition ERASE_NVS : bool := true.

(** [[ (offs, open(path, "rb")) for (offs, path) in self.app.flash_files ]] *)
Fixpoint open_flash_files (l : list (pyval * string)) : M (list (pyval * nat)) :=
  match l with
  | [] => ret []
  | (offs, path) :: l' =>
      f <- open_rb path ;;
      rest <- open_flash_files l' ;;
      ret ((offs, f) :: rest)
  end.

(** The [if erase_nvs:] block. *)
Definition append_nvs (self : IDFDUT) (flash_files : list (pyval * nat))
  : M (list (pyval * nat)) :=
  nvs <- getitem (partition_table (app self)) "nvs" ;;
  let address := part_offset nvs in
  let size := part_size nvs in
  nvs_file <- TemporaryFile ;;
  f_write nvs_file (bytes_mul [xff] size) ;;;
  f_seek nvs_file 0 ;;;
  match int_base0 address with
  | Some a => ret (flash_files ++ [(PInt a, nvs_file)])%list
  | None => raise (ValueError address)
  end.

Definition images_of (l : list (pyval * nat)) : M (list (pyval * list byte)) :=
  fun w => (Return (map (fun e => (fst e, source_bytes w (snd e))) l), w).

(** [for baud_rate in rates: try: ... break / except RuntimeError:
    continue / else: raise IDFToolError()] *)
Fixpoint flash_loop (esp : pyval) (flash_args : Flash_Args) (rates : list Z) : M unit :=
  match rates with
  | [] => raise (IDFToolError "")
  | baud_rate :: rest =>
      fun w =>
        match (esptool_do (change_baud esp baud_rate) ;;;
               images <- images_of (addr_filename flash_args) ;;
               esptool_do (write_flash esp flash_args images)) w with
        | (Return _, w1) => (Return tt, w1)
        | (Raise e, w1) =>
            if isinstance_RuntimeError e then flash_loop esp flash_args rest w1
            else (Raise e, w1)
        end
  end.

(** [for (_, f) in flash_files: f.close()] *)
Fixpoint close_each (l : list (pyval * nat)) : M unit :=
  match l with
  | [] => ret tt
  | (_, f) :: l' => f_close f ;;; close_each l'
  end.

(** The list [flash_files] that [start_app] builds before it flashes. *)
Definition build_flash_files (self : IDFDUT) (erase_nvs : bool)
  : M (list (pyval * nat)) :=
  flash_files <- open_flash_files (flash_files (app self)) ;;
  if erase_nvs then append_nvs self flash_files else ret flash_files.

Definition start_app_func (erase_nvs : bool) (self : IDFDUT) (esp : pyval) : M pyval :=
  flash_files <- build_flash_files self erase_nvs ;;
  fsize <- getitem (flash_settings (app self)) "flash_size" ;;
  fmode <- getitem (flash_settings (app self)) "flash_mode" ;;
  ffreq <- getitem (flash_settings (app self)) "flash_freq" ;;
  let flash_args :=
    {| flash_size := fsize; flash_mode := fmode; flash_freq := ffreq;
       addr_filename := flash_files;
       no_stub := false; compress := true; verify := false; encrypt := false |} in
  try_finally (flash_loop esp flash_args [921600; 115200])
              (close_each flash_files) ;;;
  ret PNone.

Definition start_app (self : IDFDUT) (erase_nvs : bool) : M pyval :=
  _uses_esptool (start_app_func erase_nvs) self.

(** ** Reset, erase, dump *)

Definition reset_func (self : IDFDUT) (esp : pyval) : M pyval :=
  esptool_do (hard_reset esp) ;;;
  ret PNone.

Definition reset (self : IDFDUT) : M pyval := _uses_esptool reset_func self.

(** [erase_partition] raises before it does anything. *)
Definition erase_partition_func (partition : string) (self : IDFDUT) (esp : pyval)
  : M pyval :=
  raise NotImplementedError.

Definition erase_partition (self : IDFDUT) (partition : string) : M pyval :=
  _uses_esptool (erase_partition_func partition) self.

(** [os.path.relpath(output_file, self.app.get_log_folder())] *)
Definition relpath_to_log_folder (self : IDFDUT) (output_file : string) : M string :=
  fun w =>
    match posixpath.relpath (cwd w) output_file (get_log_folder (app self)) with
    | Some p => (Return p, w)
    | None => (Raise (ValueError "no path specified"), w)
    end.

(** The region to read: [(_address, _size)]. *)
Definition dump_region (self : IDFDUT) (kwargs : gmap string pyval) : M (pyval * pyval) :=
  match kwargs !! "partition" with
  | Some key =>
      partition <- match key with
                   | PStr k => getitem (partition_table (app self)) k
                   | _ => raise (KeyError "")
                   end ;;
      ret (PStr (part_offset partition), PInt (part_size partition))
  | None =>
      match kwargs !! "address", kwargs !! "size" with
      | Some address, Some size => ret (address, size)
      | _, _ =>
          raise (IDFToolError
            "You must specify 'partition' or ('address' and 'size') to dump flash")
      end
  end.

Definition dump_flush_func (output_file : string) (kwargs : gmap string pyval)
    (self : IDFDUT) (esp : pyval) : M pyval :=
  output_file <- (if posixpath.isabs output_file then ret output_file
                  else relpath_to_log_folder self output_file) ;;
  region <- dump_region self kwargs ;;
  content <- esptool_do (read_flash esp (fst region) (snd region)) ;;
  f <- open_wb output_file ;;
  try_finally (match content with
               | PBytes b => f_write f b
               | _ => raise (TypeError "a bytes-like object is required")
               end)
              (f_close f) ;;;
  ret PNone.

Definition dump_flush (self : IDFDUT) (output_file : string)
    (kwargs : gmap string pyval) : M pyval :=
  _uses_esptool (dump_flush_func output_file kwargs) self.

(** The undecorated function of each operation. *)
Definition op_func (op : control_op) : IDFDUT -> pyval -> M pyval :=
  match op with
  | op_start_app erase_nvs => start_app_func erase_nvs
  | op_reset => reset_func
  | op_erase_partition partition => erase_partition_func partition
  | op_dump_flush output_file kwargs => dump_flush_func output_file kwargs
  end.

(** Calling the decorated method. *)
Definition run_op (self : IDFDUT) (op : control_op) : M pyval :=
  match op with
  | op_start_app erase_nvs => start_app self erase_nvs
  | op_reset => reset self
  | op_erase_partition partition => erase_partition self partition
  | op_dump_flush output_file kwargs => dump_flush self output_file kwargs
  end.

(** One transfer-speed attempt of [flash_loop]: the body of its [try]. *)
Definition speed_attempt (esp : pyval) (flash_args : Flash_Args) (baud_rate : Z)
  : M pyval :=
  esptool_do (change_baud esp baud_rate) ;;;
  images <- images_of (addr_filename flash_args) ;;
  esptool_do (write_flash esp flash_args images).

(** What [_uses_esptool] does before it calls the function: the
    snapshot and the loader it hands over. *)
Definition session_enter : M (Settings * pyval) :=
  stop_receive ;;;
  settings <- get_settings ;;
  rom <- esptool_do (ESP32ROM (inr tt)) ;;
  esptool_do (connect rom (Some "hard_reset")) ;;;
  esp <- esptool_do (run_stub rom) ;;
  ret (settings, esp).

End Semantics.


(** The baud rates of the [change_baud] calls of a log: the speed
    attempts. *)
Definition speeds (cs : list call) : list Z :=
  omap (fun c => match c with change_baud _ b => Some b | _ => None end) cs.

Definition is_read_flash (c : call) : bool :=
  match c with read_flash _ _ _ => true | _ => false end.

Definition is_connect_or_stub (c : call) : bool :=
  match c with connect _ _ | run_stub _ => true | _ => false end.

(** ** Vocabulary of the statements *)

(** The words a pattern matches. *)
Fixpoint re_lang (r : regex) (w : string) : Prop :=
  match r with
  | Lit l => w = l
  | Alt r1 r2 => re_lang r1 w \/ re_lang r2 w
  end.

(** A port name is invalid when "AMA" or "Bluetooth" occurs in it. *)
Definition invalid_port_name (p : string) : Prop :=
  exists pre w post, (w = "AMA" \/ w = "Bluetooth") /\ p = (pre +:+ w +:+ post).

(** How the wrapper ends: settings applied, listener started. *)
Definition session_leave {Settings D : Type} (settings : Settings) (w : world Settings D)
  : world Settings D :=
  {| listening := true; line := settings; device := device w; cwd := cwd w;
     fs := fs w; files := files w; serials := serials w; calls := calls w |}.

Definition no_read_flash (cs : list call) : bool :=
  forallb (fun c => negb (is_read_flash c)) cs.

(** ** A scripted device, for the examples

    The line settings are a baud rate; the device is the list of the
    outcomes still to come, one per esptool call, and answers [None] once
    the script is over.  A loader opens at the ROM baud rate and a
    [change_baud] that returns has changed the rate. *)
Module Scripted.

Definition ESP_ROM_BAUD : Z := 115200.

Definition line_after (c : call) (baud : Z) : Z :=
  match c with
  | ESP32ROM _ => ESP_ROM_BAUD
  | change_baud _ b => b
  | _ => baud
  end.

Definition esptool (c : call) (sd : Z * list (outcome pyval))
  : outcome pyval * (Z * list (outcome pyval)) :=
  match snd sd with
  | [] => (Return PNone, (line_after c (fst sd), []))
  | Return v :: script => (Return v, (line_after c (fst sd), script))
  | Raise e :: script => (Raise e, (fst sd, script))
  end.

Definition hex_digit (c : ascii) : option Z :=
  let n := Z.of_nat (nat_of_ascii c) in
  if ((48 <=? n) && (n <=? 57))%Z then Some (n - 48)
  else if ((97 <=? n) && (n <=? 102))%Z then Some (n - 87)
  else if ((65 <=? n) && (n <=? 70))%Z then Some (n - 55)
  else None.

Fixpoint digits (base : Z) (acc : Z) (s : string) : option Z :=
  match s with
  | EmptyString => Some acc
  | String c s' =>
      match hex_digit c with
      | Some d => if (d <? base)%Z then digits base (base * acc + d) s' else None
      | None => None
      end
  end.

(** Enough of [int(s, 0)] for the offsets of a partition table:
    [0x] literals and plain decimals. *)
Definition int_base0 (s : string) : option Z :=
  match s with
  | String "0" (String "x" (String c s')) => digits 16 0 (String c s')
  | String _ _ => digits 10 0 s
  | EmptyString => None
  end.

Definition world0 (baud : Z) (script : list (outcome pyval))
    (files : gmap string (list byte)) : world Z (list (outcome pyval)) :=
  {| listening := true; line := baud; device := script; cwd := "/work";
     fs := files; files := []; serials := []; calls := [] |}.

Definition app0 : IDFApp :=
  {| flash_files := [(PInt 4096, "build/bootloader.bin"); (PInt 65536, "build/app.bin")];
     partition_table :=
       {[ "nvs" := {| part_offset := "0x9000"; part_size := 6 |};
          "phy_init" := {| part_offset := "0xf000"; part_size := 4096 |} ]};
     flash_settings :=
       {[ "flash_size" := PStr "4MB"; "flash_mode" := PStr "dio";
          "flash_freq" := PStr "40m" ]};
     get_log_folder := "/logs/run1" |}.

Definition dut0 : IDFDUT :=
  {| name := "dut1"; port := "/dev/ttyUSB0"; app := app0 |}.

Definition fs0 : gmap string (list byte) :=
  {[ "/work/build/bootloader.bin" := [x01; x02];
     "/work/build/app.bin" := [x03; x04; x05] ]}.

End Scripted.

(** ** Vocabulary of the further properties *)

(** A computation keeps a component of the world, however it ends. *)
Definition keeps {Settings D A X : Type} (f : world Settings D -> X)
    (m : world Settings D -> outcome A * world Settings D) : Prop :=
  forall w, f (m w).2 = f w.

(** The esptool calls a computation adds to the log all satisfy [P]. *)
Definition emits {Settings D A : Type} (P : call -> Prop)
    (m : world Settings D -> outcome A * world Settings D) : Prop :=
  forall w, exists new, calls (m w).2 = (calls w ++ new)%list /\ Forall P new.

(** The esptool calls each operation may make on the loader [esp] it is
    given. *)
Definition allowed_call (op : control_op) (esp : pyval) (c : call) : Prop :=
  match op, c with
  | op_start_app _, change_baud e b => e = esp /\ (b = 921600 \/ b = 115200)
  | op_start_app _, write_flash e a _ =>
      e = esp /\ no_stub a = false /\ compress a = true /\
      verify a = false /\ encrypt a = false
  | op_reset, hard_reset e => e = esp
  | op_dump_flush _ _, read_flash e _ _ => e = esp
  | _, _ => False
  end.

(** A component of the world that the file objects and the host files
    are no part of. *)
Definition file_blind {Settings D X : Type} (f : world Settings D -> X) : Prop :=
  (forall fl w, f (set_files fl w) = f w) /\ (forall m w, f (set_fs m w) = f w).

(** Two more applications for the examples: one whose partition table has
    no "nvs", one whose flash settings lack the mode. *)
Module ScriptedEdges.

Definition app_without_nvs : IDFApp :=
  {| flash_files := [(PInt 4096, "build/bootloader.bin")];
     partition_table := {[ "phy_init" := {| part_offset := "0xf000"; part_size := 4096 |} ]};
     flash_settings :=
       {[ "flash_size" := PStr "4MB"; "flash_mode" := PStr "dio";
          "flash_freq" := PStr "40m" ]};
     get_log_folder := "/logs/run1" |}.

Definition app_without_mode : IDFApp :=
  {| flash_files := [(PInt 4096, "build/bootloader.bin")];
     partition_table := {[ "nvs" := {| part_offset := "0x9000"; part_size := 2 |} ]};
     flash_settings := {[ "flash_size" := PStr "4MB"; "flash_freq" := PStr "40m" ]};
     get_log_folder := "/logs/run1" |}.

Definition dut (a : IDFApp) : IDFDUT :=
  {| name := "dut1"; port := "/dev/ttyUSB0"; app := a |}.

(** The script of a session that is entered: loader, connect, stub. *)
Definition entered : list (outcome pyval) :=
  [Return (PObj 0); Return PNone; Return (PObj 1)].

End ScriptedEdges.

(** * Properties *)

(** ** Port resolver *)

Example ports_no_hint :
  list_available_ports
    ["/dev/ttyUSB0"; "/dev/ttyAMA0"; "/dev/tty.Bluetooth-Incoming-Port"; "/dev/ttyUSB1"]
    None "linux"
  = ["/dev/ttyUSB0"; "/dev/ttyUSB1"].
Proof. reflexivity. Qed.

Example ports_hint_unfiltered :
  list_available_ports ["/dev/ttyUSB0"; "/dev/ttyAMA0"; "/dev/ttyUSB1"]
                       (Some "/dev/ttyUSB1") "linux"
  = ["/dev/ttyUSB1"; "/dev/ttyUSB0"; "/dev/ttyAMA0"].
Proof. reflexivity. Qed.

Example ports_darwin_alias :
  list_available_ports ["/dev/cu.usbserial-1"; "/dev/cu.SLAB"] (Some "/dev/tty.SLAB") "darwin"
  = ["/dev/cu.SLAB"; "/dev/cu.usbserial-1"].
Proof. reflexivity. Qed.

Example ports_unknown_hint :
  list_available_ports ["/dev/ttyUSB0"; "/dev/ttyAMA0"] (Some "/dev/tty.SLAB") "linux"
  = ["/dev/ttyUSB0"; "/dev/ttyAMA0"].
Proof. reflexivity. Qed.

Example relpath_from_log_folder :
  posixpath.relpath "/work" "a/../b//c.bin" "/work/logs" = Some "../b/c.bin".
Proof. reflexivity. Qed.

Example normpath_slashes : posixpath.normpath "//a/./b/../c/" = "//a/c".
Proof. reflexivity. Qed.

Lemma startswith_spec (p s : string) :
  Str.startswith p s = true <-> exists post, s = (p +:+ post).
Proof.
  revert s. induction p as [|a p IH]; intros s; simpl.
  - split; [intros _; by exists s | done].
  - destruct s as [|b s].
    + split; [done | intros [post H]; discriminate H].
    + destruct (Ascii.eqb_spec a b) as [->|Hne].
      * rewrite IH. split; intros [post H]; exists post.
        -- by rewrite H.
        -- by injection H.
      * split; [done | intros [post H]; injection H; intros _ E; by destruct Hne].
Qed.

Lemma re_match_here_spec (r : regex) (s : string) :
  re_match_here r s = true <-> exists w post, re_lang r w /\ s = (w +:+ post).
Proof.
  induction r as [l|r1 IH1 r2 IH2]; simpl.
  - rewrite startswith_spec. split.
    + intros [post ->]. by exists l, post.
    + intros (w & post & -> & ->). by exists post.
  - rewrite orb_true_iff, IH1, IH2. split.
    + intros [(w & post & H & ->)|(w & post & H & ->)]; exists w, post; auto.
    + intros (w & post & [H|H] & ->); [left|right]; by exists w, post.
Qed.

Lemma re_search_spec (r : regex) (s : string) :
  re_search r s = true <-> exists pre w post, re_lang r w /\ s = (pre +:+ w +:+ post).
Proof.
  induction s as [|c s IH].
  - simpl. rewrite orb_false_r, re_match_here_spec. split.
    + intros (w & post & H & E). by exists "", w, post.
    + intros (pre & w & post & H & E). destruct pre; [|discriminate E].
      by exists w, post.
  - cbn [re_search]. rewrite orb_true_iff, re_match_here_spec, IH. split.
    + intros [(w & post & H & E)|(pre & w & post & H & E)].
      * by exists "", w, post.
      * exists (String c pre), w, post. split; [done|]. simpl. by rewrite E.
    + intros (pre & w & post & H & E). destruct pre as [|a pre].
      * left. by exists w, post.
      * right. simpl in E. injection E as -> E. by exists pre, w, post.
Qed.

Lemma invalid_port_pattern_spec (p : string) :
  re_search INVALID_PORT_PATTERN p = true <-> invalid_port_name p.
Proof.
  rewrite re_search_spec. unfold invalid_port_name. simpl.
  split; intros (pre & w & post & H & E); by exists pre, w, post.
Qed.

(** C8: with no hint (the variable unset, or set to the empty text) the
    result is the enumerated list with exactly the ports whose name
    contains "AMA" or "Bluetooth" filtered out: the kept ports stay in
    their order. *)
Theorem C8_no_hint_filters_invalid_ports (ports : list string) (platform : string) :
  exists keep : string -> bool,
    (forall p, keep p = true <-> ~ invalid_port_name p) /\
    list_available_ports ports None platform = List.filter keep ports /\
    list_available_ports ports (Some "") platform = List.filter keep ports /\
    sublist (list_available_ports ports None platform) ports.
Proof.
  exists (fun x => negb (re_search INVALID_PORT_PATTERN x)).
  split; [|split; [done|split; [done|]]].
  - intros p. rewrite negb_true_iff, <- invalid_port_pattern_spec.
    by destruct (re_search INVALID_PORT_PATTERN p).
  - unfold list_available_ports.
    induction ports as [|x l IH]; simpl; [constructor|].
    destruct (negb _); by constructor.
Qed.

(** A run of C8: the two invalid ports of four are dropped. *)
Lemma C8_witness :
  exists keep : string -> bool,
    list_available_ports
      ["/dev/ttyUSB0"; "/dev/ttyAMA0"; "/dev/tty.Bluetooth-Incoming-Port"; "/dev/ttyUSB1"]
      None "linux"
    = List.filter keep
        ["/dev/ttyUSB0"; "/dev/ttyAMA0"; "/dev/tty.Bluetooth-Incoming-Port"; "/dev/ttyUSB1"].
Proof.
  destruct (C8_no_hint_filters_invalid_ports
              ["/dev/ttyUSB0"; "/dev/ttyAMA0"; "/dev/tty.Bluetooth-Incoming-Port"; "/dev/ttyUSB1"]
              "linux") as (keep & _ & H & _).
  exists keep. exact H.
Defined.

Lemma list_in_spec (x : string) (l : list string) :
  list_in x l = true <-> x ∈ l.
Proof.
  unfold list_in. rewrite existsb_exists, list_elem_of_In. split.
  - intros (y & Hy & E). apply String.eqb_eq in E. by subst.
  - intros H. exists x. split; [done | apply String.eqb_refl].
Qed.

Lemma list_remove_split (x : string) (l : list string) :
  x ∈ l ->
  exists l1 l2, l = (l1 ++ x :: l2)%list /\ (x ∉ l1) /\ list_remove x l = (l1 ++ l2)%list.
Proof.
  induction l as [|y l IH]; intros H.
  - by apply elem_of_nil in H.
  - simpl. destruct (String.eqb_spec x y) as [->|Hne].
    + exists [], l. repeat split; [apply not_elem_of_nil].
    + apply elem_of_cons in H as [H|H]; [done|].
      destruct (IH H) as (l1 & l2 & -> & Hn & ->).
      exists (y :: l1), l2. repeat split.
      by apply not_elem_of_cons.
Qed.

(** C9: with a hint that is one of the enumerated ports, the result is
    the hint followed by the enumerated list without the first occurrence
    of the hint: the hint is first, the result is a permutation of the
    whole unfiltered list (every port as often as enumerated), the other
    ports keep their order, and a list without duplicates stays so. *)
Theorem C9_hint_is_promoted (ports : list string) (hint platform : string) :
  hint <> "" ->
  hint ∈ ports ->
  let r := list_available_ports ports (Some hint) platform in
  (exists l1 l2, ports = (l1 ++ hint :: l2)%list /\ (hint ∉ l1) /\ r = (hint :: l1 ++ l2)%list) /\
  head r = Some hint /\
  Permutation r ports /\
  (NoDup ports -> NoDup r) /\
  List.filter (fun p => negb (String.eqb p hint)) (tail r)
  = List.filter (fun p => negb (String.eqb p hint)) ports.
Proof.
  intros Hne Hin r.
  assert (Hr : r = hint :: list_remove hint ports).
  { unfold r, list_available_ports. destruct hint; [done|].
    apply list_in_spec in Hin. by rewrite Hin. }
  destruct (list_remove_split hint ports Hin) as (l1 & l2 & Hp & Hn & Hrm).
  rewrite Hrm in Hr. clearbody r. subst r.
  assert (HP : Permutation (hint :: l1 ++ l2) ports).
  { rewrite Hp. apply Permutation_middle. }
  split; [by exists l1, l2|]. split; [done|]. split; [done|]. split.
  - intros Hnd. by rewrite HP.
  - simpl. rewrite Hp, !List.filter_app. simpl.
    by rewrite String.eqb_refl.
Qed.

(** A run of C9: the hinted port of three comes first. *)
Lemma C9_witness :
  list_available_ports ["/dev/ttyUSB0"; "/dev/ttyAMA0"; "/dev/ttyUSB1"]
                       (Some "/dev/ttyUSB1") "linux"
  = ["/dev/ttyUSB1"; "/dev/ttyUSB0"; "/dev/ttyAMA0"] /\
  Permutation ["/dev/ttyUSB1"; "/dev/ttyUSB0"; "/dev/ttyAMA0"]
              ["/dev/ttyUSB0"; "/dev/ttyAMA0"; "/dev/ttyUSB1"].
Proof.
  split; [reflexivity|].
  refine (proj1 (proj2 (proj2
    (C9_hint_is_promoted ["/dev/ttyUSB0"; "/dev/ttyAMA0"; "/dev/ttyUSB1"]
                         "/dev/ttyUSB1" "linux" _ _)))).
  - discriminate.
  - apply list_in_spec. reflexivity.
Defined.
(** ** Session manager *)

Section SessionProperties.

Context {Settings D : Type}.
Variable esptool : call -> Settings * D -> outcome pyval * (Settings * D).
Variable int_base0 : string -> option Z.

(** The wrapper is: enter, call, and leave only when the call returned. *)
Lemma uses_esptool_unfold (func : IDFDUT -> pyval -> M pyval) self (w : world Settings D) :
  _uses_esptool esptool func self w =
  match session_enter esptool w with
  | (Return (settings, esp), w3) =>
      match func self esp w3 with
      | (Return v, w4) => (Return v, session_leave settings w4)
      | (Raise e, w4) => (Raise e, w4)
      end
  | (Raise e, w3) => (Raise e, w3)
  end.
Proof.
  unfold _uses_esptool, session_enter, bind, stop_receive, get_settings,
    esptool_do, ret, apply_settings, start_receive. simpl.
  destruct (esptool (ESP32ROM (inr ())) _) as [[rom|e] [s1 d1]]; [|done].
  destruct (esptool (connect rom (Some "hard_reset")) _) as [[x|e] [s2 d2]]; [|done].
  destruct (esptool (run_stub rom) _) as [[esp|e] [s3 d3]]; [|done].
  by destruct (func self esp _) as [[v|e] w4].
Qed.

Lemma run_op_unfold self op :
  run_op esptool int_base0 self op = _uses_esptool esptool (op_func esptool int_base0 op) self.
Proof. by destruct op. Qed.

(** Entering stops the listener and snapshots the settings of entry. *)
Lemma session_enter_returns (w w3 : world Settings D) settings esp :
  session_enter esptool w = (Return (settings, esp), w3) ->
  settings = line w /\ listening w3 = false /\
  fs w3 = fs w /\ files w3 = files w /\ cwd w3 = cwd w /\
  exists rom, calls w3 = (calls w ++ [ESP32ROM (inr tt); connect rom (Some "hard_reset");
                                       run_stub rom])%list.
Proof.
  unfold session_enter, bind, stop_receive, get_settings, esptool_do, ret. simpl.
  destruct (esptool (ESP32ROM (inr ())) _) as [[rom|e] [s1 d1]]; [|done].
  destruct (esptool (connect rom (Some "hard_reset")) _) as [[x|e] [s2 d2]]; [|done].
  destruct (esptool (run_stub rom) _) as [[esp'|e] [s3 d3]]; [|done].
  intros [= <- <- <-]. simpl. repeat split; try done.
  exists rom. by rewrite <- !app_assoc.
Qed.

(** C1 (as amended): for each wrapped operation, when the connect, the
    stub load and the operation itself return, the wrapped call returns
    the operation's value with the listener running again and the serial
    settings of entry restored. *)
Theorem C1_session_cleanup_when_all_return
    self op (w w3 w4 : world Settings D) settings esp v :
  session_enter esptool w = (Return (settings, esp), w3) ->
  op_func esptool int_base0 op self esp w3 = (Return v, w4) ->
  exists w5, run_op esptool int_base0 self op w = (Return v, w5) /\
             listening w5 = true /\ line w5 = line w.
Proof.
  intros Henter Hop. exists (session_leave settings w4).
  rewrite run_op_unfold, uses_esptool_unfold, Henter, Hop.
  by destruct (session_enter_returns _ _ _ _ Henter) as [-> _].
Qed.

End SessionProperties.

(** A run of C1: a reset on a device that answers every call. *)
Lemma C1_witness :
  exists w5,
    run_op Scripted.esptool Scripted.int_base0 Scripted.dut0 op_reset
           (Scripted.world0 9600 [] ∅) = (Return PNone, w5) /\
    listening w5 = true /\ line w5 = 9600.
Proof.
  eapply (C1_session_cleanup_when_all_return Scripted.esptool Scripted.int_base0
            Scripted.dut0 op_reset (Scripted.world0 9600 [] ∅)); reflexivity.
Defined.

(** C1 as stated fails: when the connect raises, the wrapped call raises
    with the listener left stopped and the line at the ROM baud rate the
    loader set, not at the rate of entry. *)
Lemma C1_counterexample :
  let w := Scripted.world0 9600 [Return (PObj 0); Raise (FatalError "Failed to connect")] ∅ in
  let res := reset Scripted.esptool Scripted.dut0 w in
  listening w = true /\ line w = 9600 /\
  res.1 = Raise (FatalError "Failed to connect") /\
  listening res.2 = false /\ line res.2 = 115200 /\
  ~ (listening res.2 = true /\ line res.2 = line w).
Proof.
  vm_compute. repeat split; try reflexivity. intros [H _]. discriminate H.
Qed.

(** ** Dump *)

Section DumpProperties.

Context {Settings D : Type}.
Variable esptool : call -> Settings * D -> outcome pyval * (Settings * D).

(** However entering ends, it touches no file and reads no flash. *)
Lemma session_enter_effects (w w3 : world Settings D) r :
  session_enter esptool w = (r, w3) ->
  fs w3 = fs w /\ files w3 = files w /\ cwd w3 = cwd w /\
  exists new, calls w3 = (calls w ++ new)%list /\ no_read_flash new = true.
Proof.
  unfold session_enter, bind, stop_receive, get_settings, esptool_do, ret. simpl.
  destruct (esptool (ESP32ROM (inr ())) _) as [[rom|e] [s1 d1]].
  2:{ intros [= <- <-]. simpl. repeat split. by eexists [_]. }
  destruct (esptool (connect rom (Some "hard_reset")) _) as [[x|e] [s2 d2]].
  2:{ intros [= <- <-]. simpl. repeat split. rewrite <- app_assoc. by eexists [_; _]. }
  destruct (esptool (run_stub rom) _) as [[esp'|e] [s3 d3]];
    intros [= <- <-]; simpl; repeat split; rewrite <- !app_assoc; by eexists [_; _; _].
Qed.

Lemma relpath_nonempty (cwd path start : string) :
  path <> "" -> exists p, posixpath.relpath cwd path start = Some p.
Proof.
  intros H. unfold posixpath.relpath.
  destruct (String.eqb_spec path ""); [done|].
  destruct (_ ++ _)%list; eauto.
Qed.

(** The path [dump_flush_func] goes on with. *)
Lemma dump_output_path self (output_file : string) (w : world Settings D) :
  output_file <> "" ->
  exists p,
    (if posixpath.isabs output_file then ret output_file
     else relpath_to_log_folder self output_file) w = (Return p, w).
Proof.
  intros H. destruct (posixpath.isabs output_file); [by exists output_file|].
  unfold relpath_to_log_folder.
  destruct (relpath_nonempty (cwd w) output_file (get_log_folder (app self)) H) as [p ->].
  by exists p.
Qed.

(** An invalid request raises in the function, at once. *)
Lemma dump_flush_func_invalid self output_file kwargs esp (w : world Settings D) :
  kwargs !! "partition" = None ->
  kwargs !! "address" = None \/ kwargs !! "size" = None ->
  exists e, dump_flush_func esptool output_file kwargs self esp w = (Raise e, w) /\
            (output_file <> "" -> is_IDFToolError e = true).
Proof.
  intros Hp Has. unfold dump_flush_func, bind.
  assert (Hr : exists msg, @dump_region Settings D self kwargs w = (Raise (IDFToolError msg), w)).
  { unfold dump_region. rewrite Hp.
    destruct Has as [-> | ->]; [|destruct (kwargs !! "address")]; by eexists. }
  destruct Hr as [msg Hr].
  destruct (posixpath.isabs output_file).
  - simpl. rewrite Hr. by eexists.
  - unfold relpath_to_log_folder.
    destruct (posixpath.relpath _ _ _) as [p|] eqn:E.
    + rewrite Hr. by eexists.
    + eexists. split; [done|]. intros Hne.
      destruct (relpath_nonempty (cwd w) output_file (get_log_folder (app self)) Hne).
      congruence.
Qed.

(** C2 (as amended): a [dump_flush] given neither a partition nor both
    an address and a size never returns, reads no flash and writes no
    file; the wrapper connects and loads the stub first, and once they
    have returned the call fails with [IDFToolError] (for a non-empty
    output path) with no further esptool call; a failure of the connect
    or of the stub load is raised as it is. *)
Theorem C2_invalid_dump_request_fails_after_connect
    self (output_file : string) (kwargs : gmap string pyval) (w : world Settings D) :
  kwargs !! "partition" = None ->
  kwargs !! "address" = None \/ kwargs !! "size" = None ->
  let res := dump_flush esptool self output_file kwargs w in
  returns res.1 = false /\
  fs res.2 = fs w /\ files res.2 = files w /\
  (exists new, calls res.2 = (calls w ++ new)%list /\ no_read_flash new = true) /\
  (forall settings esp w3,
      session_enter esptool w = (Return (settings, esp), w3) ->
      output_file <> "" ->
      (exists msg, res.1 = Raise (IDFToolError msg)) /\
      exists rom, calls res.2 = (calls w ++ [ESP32ROM (inr tt);
                                             connect rom (Some "hard_reset");
                                             run_stub rom])%list) /\
  (forall e w3, session_enter esptool w = (Raise e, w3) -> res = (Raise e, w3)).
Proof.
  intros Hp Has res. unfold res, dump_flush. rewrite uses_esptool_unfold.
  destruct (session_enter esptool w) as [[[settings esp]|e] w3] eqn:Henter.
  - destruct (dump_flush_func_invalid self output_file kwargs esp w3 Hp Has)
      as (e & -> & He).
    destruct (session_enter_effects _ _ _ Henter) as (Hfs & Hfl & _ & Hcalls).
    destruct (session_enter_returns _ _ _ _ _ Henter) as (_ & _ & _ & _ & _ & rom & Hrom).
    simpl. split_and!; try done.
    intros ? ? ? [= <- <- <-] Hne. specialize (He Hne).
    split; [destruct e; try done; by eexists | by exists rom].
  - destruct (session_enter_effects _ _ _ Henter) as (Hfs & Hfl & _ & Hcalls).
    simpl. split_and!; try done. by intros ? ? [= <- <-].
Qed.

(** C10: when a partition is named, the read is made at the offset and
    with the size the partition table declares for it, and an address
    and a size given as well change nothing: the call is the call
    without them, whatever they are. *)
Theorem C10_partition_takes_precedence
    self (output_file key : string) (kwargs : gmap string pyval) part address size
    (w : world Settings D) :
  kwargs !! "partition" = Some (PStr key) ->
  partition_table (app self) !! key = Some part ->
  kwargs !! "address" = Some address ->
  kwargs !! "size" = Some size ->
  let res := dump_flush esptool self output_file kwargs w in
  res = dump_flush esptool self output_file (delete "address" (delete "size" kwargs)) w /\
  (forall address' size',
      res = dump_flush esptool self output_file
              (<["address" := address']> (<["size" := size']> kwargs)) w) /\
  (forall settings esp w3,
      session_enter esptool w = (Return (settings, esp), w3) ->
      output_file <> "" ->
      calls res.2 = (calls w3 ++ [read_flash esp (PStr (part_offset part))
                                                  (PInt (part_size part))])%list).
Proof.
  intros Hp Hpart Ha Hs res.
  assert (Hregion : forall k' : gmap string pyval,
             k' !! "partition" = Some (PStr key) ->
             @dump_region Settings D self k' = ret (PStr (part_offset part), PInt (part_size part))).
  { intros k' Hk'. unfold dump_region, getitem. by rewrite Hk', Hpart. }
  assert (Hsame : forall k' : gmap string pyval,
             k' !! "partition" = Some (PStr key) ->
             res = dump_flush esptool self output_file k' w).
  { intros k' Hk'. unfold res, dump_flush. rewrite !uses_esptool_unfold.
    destruct (session_enter esptool w) as [[[settings esp]|e] w3]; [|done].
    unfold dump_flush_func. by rewrite (Hregion kwargs Hp), (Hregion k' Hk'). }
  split; [|split].
  - apply Hsame. by rewrite !lookup_delete_ne.
  - intros a' s'. apply Hsame. by rewrite !lookup_insert_ne.
  - intros settings esp w3 Henter Hne.
    unfold res, dump_flush. rewrite uses_esptool_unfold, Henter.
    unfold dump_flush_func. rewrite (Hregion kwargs Hp).
    unfold bind at 1.
    destruct (dump_output_path self output_file w3 Hne) as [p ->].
    unfold bind, ret, esptool_do, open_wb, new_file, try_finally, f_close, f_write, raise.
    simpl.
    destruct (esptool (read_flash _ _ _) _) as [[content|e] [s1 d1]]; simpl; [|done].
    destruct content; simpl;
      repeat (match goal with |- context [match ?x with _ => _ end] => destruct x end; simpl);
      done.
Qed.

End DumpProperties.

(** C2 as stated fails: the invalid request reaches the validation only
    after the boot ROM connect and the stub load have been made. *)
Lemma C2_counterexample :
  let w := Scripted.world0 9600 [] ∅ in
  let res := dump_flush Scripted.esptool Scripted.dut0 "dump.bin" ∅ w in
  calls w = [] /\
  calls res.2 = [ESP32ROM (inr tt); connect PNone (Some "hard_reset"); run_stub PNone] /\
  ~ (existsb is_connect_or_stub (calls res.2) = false).
Proof. vm_compute. repeat split; discriminate. Qed.

(** A run of C2: no region named, on a device that answers. *)
Lemma C2_witness :
  let res := dump_flush Scripted.esptool Scripted.dut0 "dump.bin" ∅
                        (Scripted.world0 9600 [] ∅) in
  returns res.1 = false /\ fs res.2 = ∅.
Proof.
  pose proof (C2_invalid_dump_request_fails_after_connect Scripted.esptool Scripted.dut0
                "dump.bin" ∅ (Scripted.world0 9600 [] ∅) eq_refl (or_introl eq_refl)) as H.
  split; [exact (proj1 H) | exact (proj1 (proj2 H))].
Defined.

(** A run of C10: the partition wins over an address and a size. *)
Lemma C10_witness :
  let kwargs : gmap string pyval :=
    {[ "partition" := PStr "nvs"; "address" := PInt 0; "size" := PInt 1 ]} in
  dump_flush Scripted.esptool Scripted.dut0 "/tmp/dump.bin" kwargs (Scripted.world0 9600 [] ∅)
  = dump_flush Scripted.esptool Scripted.dut0 "/tmp/dump.bin"
      (delete "address" (delete "size" kwargs)) (Scripted.world0 9600 [] ∅).
Proof.
  refine (proj1 (C10_partition_takes_precedence Scripted.esptool Scripted.dut0
            "/tmp/dump.bin" "nvs" _ {| part_offset := "0x9000"; part_size := 6 |}
            (PInt 0) (PInt 1) (Scripted.world0 9600 [] ∅) _ _ _ _)); reflexivity.
Defined.

(** ** Identity probe *)

Section ProbeProperties.

Context {Settings D : Type}.
Variable esptool : call -> Settings * D -> outcome pyval * (Settings * D).

Lemma alter_new {A} (f : A -> A) (l : list A) (x : A) :
  alter f (length l) (l ++ [x])%list = (l ++ [f x])%list.
Proof. induction l as [|y l IH]; simpl; [done | by f_equal]. Qed.

(** C7: the probe returns the identifier when the connect and the read
    return; it returns None, and does not raise, when the connect or the
    read raises a [RuntimeError] (as esptool does for a device that does
    not answer or is no compatible boot ROM); and whenever it returns,
    and whenever the loader was built at all, the connection opened for
    it has been closed, once. *)
Theorem C7_get_mac_returns_or_none_and_closes app (port : string) (w : world Settings D) :
  let res := get_mac esptool app port w in
  let closed := (serials w ++ [{| s_port := port; s_closed := 1 |}])%list in
  (forall rom sd1 x sd2 mac sd3,
      esptool (ESP32ROM (inl port)) (line w, device w) = (Return rom, sd1) ->
      esptool (connect rom None) sd1 = (Return x, sd2) ->
      esptool (read_mac rom) sd2 = (Return mac, sd3) ->
      res.1 = Return mac /\ serials res.2 = closed) /\
  (forall rom sd1 e sd2,
      esptool (ESP32ROM (inl port)) (line w, device w) = (Return rom, sd1) ->
      esptool (connect rom None) sd1 = (Raise e, sd2) ->
      isinstance_RuntimeError e = true ->
      res.1 = Return PNone /\ serials res.2 = closed) /\
  (forall rom sd1 x sd2 e sd3,
      esptool (ESP32ROM (inl port)) (line w, device w) = (Return rom, sd1) ->
      esptool (connect rom None) sd1 = (Return x, sd2) ->
      esptool (read_mac rom) sd2 = (Raise e, sd3) ->
      isinstance_RuntimeError e = true ->
      res.1 = Return PNone /\ serials res.2 = closed) /\
  (returns res.1 = true -> serials res.2 = closed) /\
  (forall rom sd1,
      esptool (ESP32ROM (inl port)) (line w, device w) = (Return rom, sd1) ->
      serials res.2 = closed).
Proof.
  intros res closed. unfold res, closed, get_mac, ESP32ROM_of_port, bind, esptool_do,
    new_serial, ret, try_finally, serial_close. simpl.
  destruct (esptool (ESP32ROM (inl port)) _) as [[rom|e0] [s1 d1]] eqn:E0; simpl.
  2:{ split_and!; try done; intros; congruence. }
  destruct (esptool (connect rom None) (s1, d1)) as [[x|e1] [s2 d2]] eqn:E1; simpl.
  - destruct (esptool (read_mac rom) (s2, d2)) as [[mac|e2] [s3 d3]] eqn:E2; simpl;
      rewrite alter_new; simpl; split_and!; try done.
    + intros ? ? ? ? ? ? [= <- <-]. rewrite E1. intros [= <- <-]. rewrite E2.
      by intros [= <-].
    + intros ? ? ? ? [= <- <-]. rewrite E1. done.
    + intros ? ? ? ? ? ? [= <- <-]. rewrite E1. intros [= <- <-]. by rewrite E2.
    + intros ? ? ? ? ? ? [= <- <-]. rewrite E1. intros [= <- <-]. by rewrite E2.
    + intros ? ? ? ? [= <- <-]. rewrite E1. done.
    + intros ? ? ? ? ? ? [= <- <-]. rewrite E1. intros [= <- <-]. rewrite E2.
      intros [= <-] ->. done.
  - rewrite alter_new; simpl; split_and!; try done.
    + intros ? ? ? ? ? ? [= <- <-]. by rewrite E1.
    + intros ? ? ? ? [= <- <-]. rewrite E1. intros [= <-] ->. done.
    + intros ? ? ? ? ? ? [= <- <-]. by rewrite E1.
Qed.

End ProbeProperties.

(** A run of C7: a port whose device does not answer the connect. *)
Lemma C7_witness :
  let res := get_mac Scripted.esptool Scripted.app0 "/dev/ttyUSB0"
               (Scripted.world0 9600 [Return (PObj 0); Raise (FatalError "Failed to connect")] ∅) in
  res.1 = Return PNone /\ serials res.2 = [{| s_port := "/dev/ttyUSB0"; s_closed := 1 |}].
Proof.
  refine (proj1 (proj2 (C7_get_mac_returns_or_none_and_closes Scripted.esptool Scripted.app0
            "/dev/ttyUSB0"
            (Scripted.world0 9600 [Return (PObj 0); Raise (FatalError "Failed to connect")] ∅)))
          (PObj 0) (115200, [Raise (FatalError "Failed to connect")])
          (FatalError "Failed to connect") (115200, []) _ _ _); reflexivity.
Defined.

(** ** Flash orchestrator *)

Section FlashProperties.

Context {Settings D : Type}.
Variable esptool : call -> Settings * D -> outcome pyval * (Settings * D).
Variable int_base0 : string -> option Z.

Lemma bytes_mul_one (b : byte) (n : Z) :
  bytes_mul [b] n = replicate (Z.to_nat n) b.
Proof.
  unfold bytes_mul. induction (Z.to_nat n) as [|k IH]; simpl; [done | by rewrite IH].
Qed.

(** Opening the image segments: the offsets are those of the
    application, the sources are new file objects, in order, and nothing
    else changes. *)
Lemma open_flash_files_returns (l : list (pyval * string)) (w w1 : world Settings D) segs :
  open_flash_files l w = (Return segs, w1) ->
  map fst segs = map fst l /\
  map snd segs = seq (length (files w)) (length l) /\
  length (files w1) = (length (files w) + length l)%nat /\
  calls w1 = calls w /\ line w1 = line w /\ device w1 = device w /\
  listening w1 = listening w.
Proof.
  revert w w1 segs. induction l as [|[offs path] l IH]; intros w w1 segs.
  - intros [= <- <-]. simpl. split_and!; try done; lia.
  - simpl. unfold bind at 1. unfold open_rb.
    destruct (fs w !! _) as [data|]; [|done].
    unfold new_file. unfold bind.
    destruct (open_flash_files l _) as [[rest|e] w2] eqn:E; [|done].
    intros [= <- <-]. apply IH in E. simpl in E.
    destruct E as (E1 & E2 & E3 & E4 & E5 & E6 & E7).
    rewrite length_app in E2, E3. simpl in E2, E3.
    simpl. split_and!; try done.
    + by rewrite E1.
    + rewrite E2. f_equal. f_equal. lia.
    + lia.
Qed.

(** C5: with [erase_nvs] true, and the image segments opened, the list
    handed to the flasher is the segments followed by exactly one more
    entry, at the offset the partition table declares for "nvs", whose
    source is a new file holding as many bytes as the declared size,
    each of them 0xFF, read from its start, so that the flasher is given
    the bytes of the segments and then that many 0xFF at that offset; with
    [erase_nvs] false it is the segments alone. *)
Theorem C5_erase_nvs_plan_entry self (w w1 : world Settings D) segs nvs (O : Z) :
  open_flash_files (flash_files (app self)) w = (Return segs, w1) ->
  partition_table (app self) !! "nvs" = Some nvs ->
  int_base0 (part_offset nvs) = Some O ->
  0 <= part_size nvs ->
  exists h w',
    build_flash_files int_base0 self true w = (Return (segs ++ [(PInt O, h)])%list, w') /\
    build_flash_files int_base0 self false w = (Return segs, w1) /\
    map fst segs = map fst (flash_files (app self)) /\
    (h ∉ map snd segs) /\
    files w' = (files w1 ++ [{| f_name := None;
                                f_data := replicate (Z.to_nat (part_size nvs)) xff;
                                f_pos := 0; f_closed := 0 |}])%list /\
    source_bytes w' h = replicate (Z.to_nat (part_size nvs)) xff /\
    Z.of_nat (length (source_bytes w' h)) = part_size nvs /\
    Forall (fun b => b = xff) (source_bytes w' h) /\
    images_of (segs ++ [(PInt O, h)])%list w'
    = (Return (map (fun e => (e.1, source_bytes w1 e.2)) segs
               ++ [(PInt O, replicate (Z.to_nat (part_size nvs)) xff)])%list, w').
Proof.
  intros Hopen Hnvs Hint Hsize.
  destruct (open_flash_files_returns _ _ _ _ Hopen) as (Hoffs & Hsrc & Hlen & _).
  exists (length (files w1)). eexists.
  unfold build_flash_files, bind. rewrite Hopen.
  unfold append_nvs, bind, getitem. rewrite Hnvs. simpl.
  unfold f_write, f_seek, bind. simpl. rewrite Hint. simpl.
  rewrite !alter_new. simpl.
  assert (Hdata : write_at 0 (bytes_mul [xff] (part_size nvs)) []
                  = replicate (Z.to_nat (part_size nvs)) xff).
  { unfold write_at. simpl. by rewrite drop_nil, app_nil_r, bytes_mul_one. }
  rewrite Hdata.
  assert (Hsb : forall fl : list file_obj,
             fl = (files w1 ++ [{| f_name := None;
                                   f_data := replicate (Z.to_nat (part_size nvs)) xff;
                                   f_pos := 0; f_closed := 0 |}])%list ->
             match fl !! length (files w1) with
             | Some f => drop (f_pos f) (f_data f)
             | None => []
             end = replicate (Z.to_nat (part_size nvs)) xff).
  { intros fl ->. by rewrite list_lookup_middle. }
  split_and!; try done.
  - rewrite Hsrc, Hlen. intros Hin%elem_of_seq. lia.
  - unfold source_bytes. simpl. by apply Hsb.
  - unfold source_bytes. simpl. rewrite (Hsb _ eq_refl), length_replicate. lia.
  - unfold source_bytes. simpl. rewrite (Hsb _ eq_refl).
    apply Forall_forall. by intros b [-> _]%elem_of_replicate.
  - unfold images_of. rewrite map_app.
    apply (f_equal (fun x => (Return x, _))). apply (f_equal2 (@List.app _)).
    + apply List.map_ext_in. intros [o f] Hin. f_equal. unfold source_bytes. simpl.
      assert (Hf : (f < length (files w1))%nat).
      { assert (Hf : f ∈ map snd segs).
        { apply list_elem_of_In, in_map_iff. by exists (o, f). }
        rewrite Hsrc in Hf. apply elem_of_seq in Hf. lia. }
      by rewrite lookup_app_l.
    + simpl. f_equal. f_equal. unfold source_bytes. simpl. by apply Hsb.
Qed.

(** Closing the sources makes no esptool call and always returns. *)
Lemma close_each_returns (l : list (pyval * nat)) (w : world Settings D) :
  exists w', close_each l w = (Return tt, w') /\ calls w' = calls w.
Proof.
  revert w. induction l as [|[o f] l IH]; intros w; simpl.
  - by exists w.
  - unfold bind, f_close. simpl.
    match goal with |- context [close_each l ?w0] => destruct (IH w0) as (w' & -> & Hc) end.
    exists w'. split; [done|]. rewrite Hc. simpl.
    destruct (files w !! f) as [[[p|] ? ? ?]|]; done.
Qed.

(** One attempt is one more speed in the log. *)
Lemma speed_attempt_speeds esp args (b : Z) (w : world Settings D) :
  speeds (calls (speed_attempt esptool esp args b w).2) = (speeds (calls w) ++ [b])%list.
Proof.
  unfold speed_attempt, bind, esptool_do, images_of. simpl.
  destruct (esptool (change_baud esp b) _) as [[x|e] [s1 d1]]; simpl.
  - destruct (esptool (write_flash _ _ _) _) as [r [s2 d2]]; simpl.
    unfold speeds. by rewrite !omap_app, <- app_assoc, app_nil_r.
  - unfold speeds. by rewrite omap_app.
Qed.

Lemma flash_loop_unfold esp args (b : Z) rest (w : world Settings D) :
  flash_loop esptool esp args (b :: rest) w =
  match speed_attempt esptool esp args b w with
  | (Return _, w1) => (Return tt, w1)
  | (Raise e, w1) =>
      if isinstance_RuntimeError e then flash_loop esptool esp args rest w1
      else (Raise e, w1)
  end.
Proof. reflexivity. Qed.

(** C3: once the plan is built, flashing makes at most the two speed
    attempts, the first at 921600 and the second at 115200.  When the
    first returns there is no second; when the first raises a
    [RuntimeError] the second is made, and then the operation returns
    if the second returns and raises [IDFToolError] if the second raises
    a [RuntimeError] too: in both cases exactly the two attempts were
    made. *)
Theorem C3_two_speed_attempts
    self esp (erase_nvs : bool) (w w0 : world Settings D) plan fsize fmode ffreq :
  build_flash_files int_base0 self erase_nvs w = (Return plan, w0) ->
  flash_settings (app self) !! "flash_size" = Some fsize ->
  flash_settings (app self) !! "flash_mode" = Some fmode ->
  flash_settings (app self) !! "flash_freq" = Some ffreq ->
  let args := {| flash_size := fsize; flash_mode := fmode; flash_freq := ffreq;
                 addr_filename := plan;
                 no_stub := false; compress := true; verify := false; encrypt := false |} in
  let res := start_app_func esptool int_base0 erase_nvs self esp w in
  let first := speed_attempt esptool esp args 921600 w0 in
  let second := speed_attempt esptool esp args 115200 first.2 in
  (speeds (calls res.2) = (speeds (calls w0) ++ [921600])%list \/
   speeds (calls res.2) = (speeds (calls w0) ++ [921600; 115200])%list) /\
  (returns first.1 = true ->
     res.1 = Return PNone /\
     speeds (calls res.2) = (speeds (calls w0) ++ [921600])%list) /\
  (forall e, first.1 = Raise e -> isinstance_RuntimeError e = true ->
     speeds (calls res.2) = (speeds (calls w0) ++ [921600; 115200])%list /\
     (returns second.1 = true -> res.1 = Return PNone) /\
     (forall e2, second.1 = Raise e2 -> isinstance_RuntimeError e2 = true ->
        res.1 = Raise (IDFToolError ""))).
Proof.
  intros Hplan Hsize Hmode Hfreq args res.
  assert (Hres : res = let '(r, w1) := flash_loop esptool esp args [921600; 115200] w0 in
                       let '(_, w2) := close_each plan w1 in
                       (match r with Return _ => Return PNone | Raise e => Raise e end, w2)).
  { unfold res, start_app_func, bind, getitem. rewrite Hplan, Hsize, Hmode, Hfreq.
    unfold ret, try_finally. cbv beta iota. fold args.
    destruct (flash_loop esptool esp args [921600; 115200] w0) as [r w1].
    destruct (close_each_returns plan w1) as (w2 & -> & _).
    by destruct r. }
  pose proof (speed_attempt_speeds esp args 921600 w0) as H1.
  cbv zeta. rewrite Hres, flash_loop_unfold. clear Hres.
  destruct (speed_attempt esptool esp args 921600 w0) as [[v1|e1] w1] eqn:E1;
    cbn [fst snd returns] in *.
  - destruct (close_each_returns plan w1) as (w2 & -> & Hc). cbn [fst snd]. rewrite Hc.
    split_and!; [by left | done | done].
  - pose proof (speed_attempt_speeds esp args 115200 w1) as H2.
    rewrite H1, <- app_assoc in H2. simpl in H2.
    destruct (isinstance_RuntimeError e1) eqn:R1.
    + rewrite flash_loop_unfold.
      destruct (speed_attempt esptool esp args 115200 w1) as [[v2|e2] w2] eqn:E2;
        cbn [fst snd returns] in *.
      * destruct (close_each_returns plan w2) as (w3 & -> & Hc). cbn [fst snd]. rewrite Hc.
        split_and!; [by right | done |]. intros e [= <-] _. done.
      * destruct (isinstance_RuntimeError e2) eqn:R2; cbn [flash_loop raise];
          destruct (close_each_returns plan w2) as (w3 & -> & Hc); cbn [fst snd];
          rewrite Hc; (split_and!; [by right | done |]); intros e [= <-] _;
          (split_and!; [done | done |]); intros ? [= <-]; [done | congruence].
    + destruct (close_each_returns plan w1) as (w2 & -> & Hc). cbn [fst snd]. rewrite Hc.
      split_and!; [by left | done |]. intros e [= <-]. congruence.
Qed.

End FlashProperties.

(** A run of C5 and C3 on the scripted device: the first attempt fails in
    the write, the second succeeds. *)
Lemma C5_witness :
  exists h w',
    build_flash_files Scripted.int_base0 Scripted.dut0 true
      (Scripted.world0 9600 [] Scripted.fs0)
    = (Return [(PInt 4096, 0%nat); (PInt 65536, 1%nat); (PInt 36864, h)], w') /\
    source_bytes w' h = [xff; xff; xff; xff; xff; xff].
Proof.
  destruct (C5_erase_nvs_plan_entry (Settings := Z) (D := list (outcome pyval))
              Scripted.int_base0 Scripted.dut0
              (Scripted.world0 9600 [] Scripted.fs0)
              (open_flash_files (flash_files Scripted.app0)
                 (Scripted.world0 9600 [] Scripted.fs0)).2
              [(PInt 4096, 0%nat); (PInt 65536, 1%nat)]
              {| part_offset := "0x9000"; part_size := 6 |} 36864)
    as (h & w' & H1 & _ & _ & _ & _ & H2 & _).
  - reflexivity.
  - reflexivity.
  - reflexivity.
  - simpl. lia.
  - exists h, w'. split; [exact H1 | exact H2].
Defined.

Lemma C3_witness :
  let script := [Return PNone; Raise (FatalError "Timed out"); Return PNone; Return PNone] in
  let res := start_app_func Scripted.esptool Scripted.int_base0 true Scripted.dut0 (PObj 1)
               (Scripted.world0 9600 script Scripted.fs0) in
  res.1 = Return PNone /\ speeds (calls res.2) = [921600; 115200].
Proof.
  intros script res.
  pose proof (C3_two_speed_attempts Scripted.esptool Scripted.int_base0 Scripted.dut0 (PObj 1) true
                (Scripted.world0 9600 script Scripted.fs0)
                (build_flash_files Scripted.int_base0 Scripted.dut0 true
                   (Scripted.world0 9600 script Scripted.fs0)).2
                [(PInt 4096, 0%nat); (PInt 65536, 1%nat); (PInt 36864, 2%nat)]
                (PStr "4MB") (PStr "dio") (PStr "40m")
                eq_refl eq_refl eq_refl eq_refl) as H.
  destruct H as (_ & _ & H).
  destruct (H (FatalError "Timed out") eq_refl eq_refl) as (Hs & Hr & _).
  split; [exact (Hr eq_refl) | exact Hs].
Defined.

(** ** Closing the data sources *)

Section CloseProperties.

Context {Settings D : Type}.
Variable esptool : call -> Settings * D -> outcome pyval * (Settings * D).
Variable int_base0 : string -> option Z.

Lemma f_close_files (h h' : nat) (w : world Settings D) :
  files (f_close h w).2 !! h' =
  (if decide (h = h') then closed_once <$> files w !! h' else files w !! h').
Proof.
  unfold f_close. cbn [snd].
  assert (E : forall w1 : world Settings D, files w1 = files w ->
             files (set_files (alter closed_once h (files w1)) w1) !! h' =
             (if decide (h = h') then closed_once <$> files w !! h' else files w !! h')).
  { intros w1 ->. simpl. destruct (decide (h = h')) as [->|Hne].
    - by rewrite list_lookup_alter_eq.
    - by rewrite list_lookup_alter_ne. }
  destruct (files w !! h) as [[[p|] ? ? ?]|]; by apply E.
Qed.

(** [close_each] closes every source as often as it is listed. *)
Lemma close_each_files (l : list (pyval * nat)) (w : world Settings D) (h : nat) :
  files (close_each l w).2 !! h =
  Nat.iter (count_occ Nat.eq_dec (map snd l) h) closed_once <$> files w !! h.
Proof.
  revert w. induction l as [|[o f] l IH]; intros w.
  - simpl. by destruct (files w !! h).
  - cbn [close_each map snd count_occ]. unfold bind.
    change (f_close f w) with (Return tt, (f_close f w).2). cbv beta iota.
    rewrite IH, f_close_files.
    destruct (Nat.eq_dec f h) as [->|Hne].
    + rewrite decide_True by done. destruct (files w !! h); [|done].
      simpl. f_equal. by rewrite <- Nat.iter_succ_r.
    + by rewrite decide_False.
Qed.

Lemma speed_attempt_files esp args (b : Z) (w : world Settings D) :
  files (speed_attempt esptool esp args b w).2 = files w.
Proof.
  unfold speed_attempt, bind, esptool_do, images_of. simpl.
  destruct (esptool (change_baud esp b) _) as [[x|e] [s1 d1]]; simpl; [|done].
  by destruct (esptool (write_flash _ _ _) _) as [r [s2 d2]].
Qed.

Lemma flash_loop_files esp args (rates : list Z) (w : world Settings D) :
  files (flash_loop esptool esp args rates w).2 = files w.
Proof.
  revert w. induction rates as [|b rates IH]; intros w; [done|].
  rewrite flash_loop_unfold.
  pose proof (speed_attempt_files esp args b w) as H.
  destruct (speed_attempt esptool esp args b w) as [[v|e] w1]; simpl in *; [done|].
  destruct (isinstance_RuntimeError e); [by rewrite IH | done].
Qed.

(** The sources of a built plan are the file objects created for it,
    each listed once. *)
Lemma build_flash_files_sources self (erase_nvs : bool) (w w0 : world Settings D) plan :
  build_flash_files int_base0 self erase_nvs w = (Return plan, w0) ->
  map snd plan = seq (length (files w)) (length plan) /\
  length (files w0) = (length (files w) + length plan)%nat.
Proof.
  unfold build_flash_files, bind.
  destruct (open_flash_files _ w) as [[segs|e] w1] eqn:Hopen; [|done].
  destruct (open_flash_files_returns _ _ _ _ Hopen) as (Hoffs & Hsrc & Hlen & _).
  assert (Hl : length segs = length (flash_files (app self))).
  { by rewrite <- (length_map fst segs), Hoffs, length_map. }
  destruct erase_nvs.
  - unfold append_nvs, bind, getitem.
    destruct (partition_table (app self) !! "nvs") as [nvs|]; [|done]. simpl.
    unfold f_write, f_seek, bind. simpl.
    destruct (int_base0 (part_offset nvs)) as [a|]; [|done].
    intros [= <- <-]. simpl.
    rewrite map_app, !length_alter, !length_app, Hsrc, Hlen, Hl, seq_app. simpl.
    split; [done | lia].
  - intros [= <- <-]. rewrite Hsrc, Hlen, Hl. done.
Qed.

(** Once the plan is built, whether the flashing returns or raises,
    every source of the plan has been closed exactly once when
    [start_app] is left. *)
Lemma start_app_func_closes_built_plan
    self esp (erase_nvs : bool) (w w0 : world Settings D) plan fsize fmode ffreq :
  build_flash_files int_base0 self erase_nvs w = (Return plan, w0) ->
  flash_settings (app self) !! "flash_size" = Some fsize ->
  flash_settings (app self) !! "flash_mode" = Some fmode ->
  flash_settings (app self) !! "flash_freq" = Some ffreq ->
  forall h, h ∈ map snd plan ->
    exists f, files w0 !! h = Some f /\
      files (start_app_func esptool int_base0 erase_nvs self esp w).2 !! h
      = Some (closed_once f).
Proof.
  intros Hplan Hsize Hmode Hfreq h Hh.
  destruct (build_flash_files_sources _ _ _ _ _ Hplan) as (Hsrc & Hlen).
  assert (Hlt : (h < length (files w0))%nat).
  { rewrite Hsrc in Hh. apply elem_of_seq in Hh. lia. }
  destruct (lookup_lt_is_Some_2 _ _ Hlt) as [f Hf]. exists f. split; [done|].
  assert (Hcount : count_occ Nat.eq_dec (map snd plan) h = 1%nat).
  { apply NoDup_count_occ'; [|by apply list_elem_of_In].
    rewrite Hsrc. apply NoDup_ListNoDup, NoDup_seq. }
  unfold start_app_func, bind, getitem. rewrite Hplan, Hsize, Hmode, Hfreq.
  unfold ret, try_finally. cbv beta iota.
  match goal with |- context [flash_loop esptool esp ?a ?r w0] =>
    pose proof (flash_loop_files esp a r w0) as Hfl;
    destruct (flash_loop esptool esp a r w0) as [r1 w1] end.
  simpl in Hfl.
  pose proof (close_each_files plan w1 h) as Hcl.
  destruct (close_each_returns plan w1) as (w2 & E & _). rewrite E in Hcl |- *.
  simpl in Hcl. rewrite Hcount, Hfl, Hf in Hcl.
  by destruct r1.
Qed.

End CloseProperties.

(** C6 on the code: the second image is missing, so the list
    comprehension raises after it has opened the first one; [start_app]
    is left through the wrapper with that file object never closed. *)
Theorem C6_open_failure_leaves_source_open :
  let w := Scripted.world0 9600 [] {[ "/work/build/bootloader.bin" := [x01; x02] ]} in
  let res := start_app Scripted.esptool Scripted.int_base0 Scripted.dut0 true w in
  res.1 = Raise (IOError "build/app.bin") /\
  files res.2 = [{| f_name := None; f_data := [x01; x02]; f_pos := 0; f_closed := 0 |}].
Proof. vm_compute. done. Qed.

(** C4 on the code: with the working directory /work and the log folder
    /logs/run1, the relative name dump.bin is turned by [relpath] into
    ../../work/dump.bin, and the bytes read land in /work/dump.bin; the
    log folder joined with the name, /logs/run1/dump.bin, is not
    written. *)
Theorem C4_relative_output_not_under_log_folder :
  let script := [Return (PObj 0); Return PNone; Return (PObj 1); Return (PBytes [x0a; x0b])] in
  let kwargs : gmap string pyval := {[ "address" := PInt 4096; "size" := PInt 2 ]} in
  let w := Scripted.world0 9600 script ∅ in
  let res := dump_flush Scripted.esptool Scripted.dut0 "dump.bin" kwargs w in
  cwd w = "/work" /\
  get_log_folder (app Scripted.dut0) = "/logs/run1" /\
  posixpath.join (get_log_folder (app Scripted.dut0)) ["dump.bin"] = "/logs/run1/dump.bin" /\
  posixpath.relpath (cwd w) "dump.bin" (get_log_folder (app Scripted.dut0))
  = Some "../../work/dump.bin" /\
  res.1 = Return PNone /\
  fs res.2 !! "/logs/run1/dump.bin" = None /\
  fs res.2 !! "/work/dump.bin" = Some [x0a; x0b].
Proof. vm_compute. done. Qed.

(** An absolute output path is used as given. *)
Example dump_flush_absolute_output :
  let script := [Return (PObj 0); Return PNone; Return (PObj 1); Return (PBytes [x0a; x0b])] in
  let kwargs : gmap string pyval := {[ "partition" := PStr "nvs" ]} in
  let res := dump_flush Scripted.esptool Scripted.dut0 "/tmp/out/dump.bin" kwargs
               (Scripted.world0 9600 script ∅) in
  res.1 = Return PNone /\
  fs res.2 !! "/tmp/out/dump.bin" = Some [x0a; x0b] /\
  last (calls res.2) = Some (read_flash (PObj 1) (PStr "0x9000") (PInt 6)).
Proof. vm_compute. done. Qed.

(** * Further properties *)

(** ** More on the port resolver *)

Lemma promote_permutation (x : string) (l : list string) :
  x ∈ l -> Permutation (x :: list_remove x l) l.
Proof.
  intros H. destruct (list_remove_split x l H) as (l1 & l2 & -> & _ & ->).
  apply Permutation_middle.
Qed.

Lemma list_in_false (x : string) (l : list string) :
  list_in x l = false <-> x ∉ l.
Proof.
  rewrite <- list_in_spec. by destruct (list_in x l).
Qed.

Lemma resolver_hint_unfold (ports : list string) (h platform : string) :
  h <> "" ->
  list_available_ports ports (Some h) platform =
  if list_in h ports then h :: list_remove h ports
  else if String.eqb platform "darwin" && Str.contains "tty." h then
    if list_in (Str.replace "tty." "cu." h) ports
    then Str.replace "tty." "cu." h :: list_remove (Str.replace "tty." "cu." h) ports
    else ports
  else ports.
Proof. intros H. by destruct h. Qed.

(** X1: with a non-empty hint the result is always a permutation of the
    enumerated list, whatever the platform and whether the hint matches
    or not: no port is filtered out (the invalid ones stay) and none is
    added. *)
Theorem resolver_with_hint_is_permutation (ports : list string) (hint platform : string) :
  hint <> "" ->
  Permutation (list_available_ports ports (Some hint) platform) ports.
Proof.
  intros Hne. unfold list_available_ports. destruct hint as [|c hint]; [done|].
  destruct (list_in (String c hint) ports) eqn:E.
  - apply promote_permutation. by apply list_in_spec.
  - destruct (_ && _); [|done].
    destruct (list_in (Str.replace _ _ _) ports) eqn:E2; [|done].
    apply promote_permutation. by apply list_in_spec.
Qed.

Lemma resolver_with_hint_is_permutation_witness :
  Permutation
    (list_available_ports ["/dev/ttyAMA0"; "/dev/cu.SLAB"] (Some "/dev/tty.SLAB") "darwin")
    ["/dev/ttyAMA0"; "/dev/cu.SLAB"].
Proof.
  apply (resolver_with_hint_is_permutation ["/dev/ttyAMA0"; "/dev/cu.SLAB"]
           "/dev/tty.SLAB" "darwin").
  discriminate.
Defined.

(** X2: whatever the hint, the resolver returns only enumerated ports,
    and never more of them than were enumerated. *)
Theorem resolver_returns_enumerated_ports
    (ports : list string) (espport : option string) (platform : string) :
  (forall p, p ∈ list_available_ports ports espport platform -> p ∈ ports) /\
  (length (list_available_ports ports espport platform) <= length ports)%nat.
Proof.
  assert (Hf : forall keep (l : list string),
             (forall p, p ∈ List.filter keep l -> p ∈ l) /\
             (length (List.filter keep l) <= length l)%nat).
  { intros keep l. split.
    - intros p. rewrite !list_elem_of_In, filter_In. tauto.
    - apply List.filter_length_le. }
  destruct espport as [hint|]; [|apply Hf].
  destruct (decide (hint = "")) as [->|Hne]; [apply Hf|].
  assert (HP : Permutation (list_available_ports ports (Some hint) platform) ports).
  { rewrite (resolver_hint_unfold ports hint platform Hne).
    repeat match goal with
           | |- context [list_in ?x ports] =>
               let E := fresh "E" in
               destruct (list_in x ports) eqn:E;
               [apply promote_permutation; by apply list_in_spec|]
           | |- context [if ?b && ?c then _ else _] => destruct (b && c)
           end; done. }
  split.
  - intros p Hp. by rewrite <- HP.
  - by rewrite HP.
Qed.

(** X3: on macOS, a hint that is not enumerated itself but whose "tty."
    reads "cu." in an enumerated port promotes that port: it comes first
    and the others keep their order.  On any other platform the same hint
    promotes nothing. *)
Theorem resolver_darwin_alias_promotes (ports : list string) (hint platform : string) :
  let alias := Str.replace "tty." "cu." hint in
  hint <> "" ->
  hint ∉ ports ->
  Str.contains "tty." hint = true ->
  alias ∈ ports ->
  (exists l1 l2, ports = (l1 ++ alias :: l2)%list /\ (alias ∉ l1) /\
     list_available_ports ports (Some hint) "darwin" = (alias :: l1 ++ l2)%list) /\
  (platform <> "darwin" -> list_available_ports ports (Some hint) platform = ports).
Proof.
  intros alias Hne Hnin Htty Hin.
  apply list_in_false in Hnin.
  split.
  - destruct (list_remove_split alias ports Hin) as (l1 & l2 & Hp & Hn & Hrm).
    exists l1, l2. split; [done|]. split; [done|].
    unfold list_available_ports. destruct hint as [|c hint]; [done|].
    rewrite Hnin, Htty. simpl. fold alias.
    apply list_in_spec in Hin. by rewrite Hin, Hrm.
  - intros Hplat. unfold list_available_ports. destruct hint as [|c hint]; [done|].
    rewrite Hnin. apply String.eqb_neq in Hplat. by rewrite Hplat.
Qed.

Lemma resolver_darwin_alias_promotes_witness :
  list_available_ports ["/dev/cu.usbserial-1"; "/dev/cu.SLAB"] (Some "/dev/tty.SLAB") "darwin"
  = ["/dev/cu.SLAB"; "/dev/cu.usbserial-1"] /\
  list_available_ports ["/dev/cu.usbserial-1"; "/dev/cu.SLAB"] (Some "/dev/tty.SLAB") "linux"
  = ["/dev/cu.usbserial-1"; "/dev/cu.SLAB"].
Proof.
  destruct (resolver_darwin_alias_promotes ["/dev/cu.usbserial-1"; "/dev/cu.SLAB"]
              "/dev/tty.SLAB" "linux") as [_ H].
  - discriminate.
  - apply list_in_false. reflexivity.
  - reflexivity.
  - apply list_in_spec. reflexivity.
  - split; [reflexivity | apply H; discriminate].
Defined.

(** X4: a non-empty hint that matches no enumerated port, directly or
    (on macOS) through the "tty." to "cu." alias, changes nothing: the
    enumerated list is returned as it is, invalid ports included. *)
Theorem resolver_unmatched_hint_returns_all (ports : list string) (hint platform : string) :
  hint <> "" ->
  hint ∉ ports ->
  platform <> "darwin" \/ Str.contains "tty." hint = false \/
    Str.replace "tty." "cu." hint ∉ ports ->
  list_available_ports ports (Some hint) platform = ports.
Proof.
  intros Hne Hnin Hno. apply list_in_false in Hnin.
  unfold list_available_ports. destruct hint as [|c hint]; [done|].
  rewrite Hnin.
  destruct Hno as [H|[H|H]].
  - apply String.eqb_neq in H. by rewrite H.
  - rewrite H. by rewrite andb_false_r.
  - apply list_in_false in H. rewrite H. by destruct (_ && _).
Qed.

Lemma resolver_unmatched_hint_returns_all_witness :
  list_available_ports ["/dev/ttyUSB0"; "/dev/ttyAMA0"] (Some "/dev/ttyUSB7") "darwin"
  = ["/dev/ttyUSB0"; "/dev/ttyAMA0"].
Proof.
  apply (resolver_unmatched_hint_returns_all ["/dev/ttyUSB0"; "/dev/ttyAMA0"]
           "/dev/ttyUSB7" "darwin").
  - discriminate.
  - apply list_in_false. reflexivity.
  - right. left. reflexivity.
Defined.

Lemma filter_idempotent {A} (keep : A -> bool) (l : list A) :
  List.filter keep (List.filter keep l) = List.filter keep l.
Proof.
  induction l as [|x l IH]; [done|]. simpl.
  destruct (keep x) eqn:E; [|done]. simpl. by rewrite E, IH.
Qed.

Lemma promoted_again (x : string) (l : list string) :
  list_in x (x :: l) = true /\ list_remove x (x :: l) = l.
Proof. unfold list_in. simpl. by rewrite String.eqb_refl. Qed.

(** X5: resolving is idempotent: the list the resolver returns is a
    fixed point of the resolver for the same hint and platform. *)
Theorem resolver_idempotent (ports : list string) (espport : option string) (platform : string) :
  list_available_ports (list_available_ports ports espport platform) espport platform
  = list_available_ports ports espport platform.
Proof.
  destruct espport as [h|]; [|apply filter_idempotent].
  destruct (decide (h = "")) as [->|Hne]; [apply filter_idempotent|].
  rewrite (resolver_hint_unfold ports h platform Hne).
  destruct (list_in h ports) eqn:E.
  - rewrite (resolver_hint_unfold _ h platform Hne).
    by destruct (promoted_again h (list_remove h ports)) as [-> ->].
  - destruct (String.eqb platform "darwin" && Str.contains "tty." h) eqn:Ed.
    + destruct (list_in (Str.replace "tty." "cu." h) ports) eqn:E2.
      * set (alias := Str.replace "tty." "cu." h) in *.
        assert (Hnin : list_in h (alias :: list_remove alias ports) = false).
        { apply list_in_false. apply list_in_false in E.
          apply list_in_spec in E2.
          by rewrite (promote_permutation alias ports E2). }
        rewrite (resolver_hint_unfold _ h platform Hne), Hnin, Ed. fold alias.
        by destruct (promoted_again alias (list_remove alias ports)) as [-> ->].
      * by rewrite (resolver_hint_unfold _ h platform Hne), E, Ed, E2.
    + by rewrite (resolver_hint_unfold _ h platform Hne), E, Ed.
Qed.

(** ** What the operations keep and what they call *)

Section Frames.

Context {Settings D : Type}.
Variable esptool : call -> Settings * D -> outcome pyval * (Settings * D).
Variable int_base0 : string -> option Z.

Abbreviation Comp A := (world Settings D -> outcome A * world Settings D).

Lemma keeps_ret {A X} (f : world Settings D -> X) (a : A) : keeps f (ret a).
Proof. by intros w. Qed.

Lemma keeps_raise {A X} (f : world Settings D -> X) (e : exn) : keeps f (@raise _ _ A e).
Proof. by intros w. Qed.

Lemma keeps_bind {A B X} (f : world Settings D -> X) (m : Comp A) (k : A -> Comp B) :
  keeps f m -> (forall a, keeps f (k a)) -> keeps f (bind m k).
Proof.
  intros Hm Hk w. unfold bind. specialize (Hm w).
  destruct (m w) as [[a|e] w1]; simpl in *; [|done]. by rewrite Hk.
Qed.

Lemma keeps_try_finally {A X} (f : world Settings D -> X) (m : Comp A) (fin : Comp unit) :
  keeps f m -> keeps f fin -> keeps f (try_finally m fin).
Proof.
  intros Hm Hf w. unfold try_finally. specialize (Hm w).
  destruct (m w) as [r w1]. specialize (Hf w1).
  destruct (fin w1) as [[u|e] w2]; simpl in *; congruence.
Qed.

Lemma keeps_getitem {V X} (f : world Settings D -> X) (d : gmap string V) (k : string) :
  keeps f (getitem d k).
Proof. intros w. unfold getitem. by destruct (d !! k). Qed.

Lemma keeps_if {A X} (f : world Settings D -> X) (b : bool) (m1 m2 : Comp A) :
  keeps f m1 -> keeps f m2 -> keeps f (if b then m1 else m2).
Proof. by destruct b. Qed.

(** The listener is touched by nothing but [stop_receive] and
    [start_receive]. *)
Lemma esptool_do_listening c : keeps listening (esptool_do esptool c).
Proof. intros w. unfold esptool_do. by destruct (esptool c _) as [r [s d]]. Qed.

Lemma listening_file_blind : file_blind (@listening Settings D).
Proof. by split. Qed.

Lemma calls_file_blind : file_blind (@calls Settings D).
Proof. by split. Qed.

(** The file primitives change the file objects and the host files
    only. *)
Section FileBlind.

Context {X : Type} (f : world Settings D -> X) (Hf : file_blind f).

Lemma new_file_keeps o : keeps f (@new_file Settings D o).
Proof. intros w. apply Hf. Qed.

Lemma open_rb_keeps path : keeps f (@open_rb Settings D path).
Proof. intros w. unfold open_rb. destruct (fs w !! _); [apply Hf | done]. Qed.

Lemma open_wb_keeps path : keeps f (@open_wb Settings D path).
Proof. intros w. unfold open_wb, new_file. simpl. destruct Hf as [H1 H2]. by rewrite H1, H2. Qed.

Lemma f_write_keeps h b : keeps f (@f_write Settings D h b).
Proof. intros w. apply Hf. Qed.

Lemma f_seek_keeps h pos : keeps f (@f_seek Settings D h pos).
Proof. intros w. apply Hf. Qed.

Lemma f_close_keeps h : keeps f (@f_close Settings D h).
Proof.
  intros w. unfold f_close. simpl. destruct Hf as [H1 H2].
  destruct (files w !! h) as [[[p|] ? ? ?]|]; by rewrite H1, ?H2.
Qed.

Lemma images_of_keeps l : keeps f (@images_of Settings D l).
Proof. by intros w. Qed.

Lemma open_flash_files_keeps l : keeps f (@open_flash_files Settings D l).
Proof.
  induction l as [|[offs path] l IH]; [apply keeps_ret|].
  simpl. apply keeps_bind; [apply open_rb_keeps|]. intros h.
  apply keeps_bind; [apply IH|]. intros rest. apply keeps_ret.
Qed.

Lemma close_each_keeps l : keeps f (@close_each Settings D l).
Proof.
  induction l as [|[o h] l IH]; [apply keeps_ret|].
  simpl. apply keeps_bind; [apply f_close_keeps | by intros _].
Qed.

Lemma build_flash_files_keeps self erase_nvs :
  keeps f (@build_flash_files Settings D int_base0 self erase_nvs).
Proof.
  unfold build_flash_files. apply keeps_bind; [apply open_flash_files_keeps|].
  intros segs. apply keeps_if; [|apply keeps_ret].
  unfold append_nvs. apply keeps_bind; [apply keeps_getitem|]. intros nvs.
  apply keeps_bind; [apply new_file_keeps|]. intros h.
  apply keeps_bind; [apply f_write_keeps|]. intros _.
  apply keeps_bind; [apply f_seek_keeps|]. intros _.
  destruct (int_base0 _); [apply keeps_ret | apply keeps_raise].
Qed.

Lemma relpath_to_log_folder_keeps self output_file :
  keeps f (@relpath_to_log_folder Settings D self output_file).
Proof. intros w. unfold relpath_to_log_folder. by destruct (posixpath.relpath _ _ _). Qed.

Lemma dump_region_keeps self kwargs : keeps f (@dump_region Settings D self kwargs).
Proof.
  unfold dump_region. destruct (kwargs !! "partition") as [key|].
  - apply keeps_bind; [|intros ?; apply keeps_ret].
    destruct key; try apply keeps_raise. apply keeps_getitem.
  - destruct (kwargs !! "address"), (kwargs !! "size");
      first [apply keeps_ret | apply keeps_raise].
Qed.

Lemma write_content_keeps h (content : pyval) :
  keeps f (try_finally
             (match content with
              | PBytes b => @f_write Settings D h b
              | _ => raise (TypeError "a bytes-like object is required")
              end) (f_close h)).
Proof.
  apply keeps_try_finally; [|apply f_close_keeps].
  destruct content; first [apply keeps_raise | apply f_write_keeps].
Qed.

End FileBlind.

Lemma speed_attempt_listening esp args b : keeps listening (speed_attempt esptool esp args b).
Proof.
  unfold speed_attempt. apply keeps_bind; [apply esptool_do_listening|]. intros _.
  apply keeps_bind; [done|]. intros images. apply esptool_do_listening.
Qed.

Lemma flash_loop_listening esp args rates : keeps listening (flash_loop esptool esp args rates).
Proof.
  induction rates as [|b rates IH]; [apply keeps_raise|].
  intros w. rewrite flash_loop_unfold.
  pose proof (speed_attempt_listening esp args b w) as H.
  destruct (speed_attempt esptool esp args b w) as [[v|e] w1]; simpl in *; [done|].
  destruct (isinstance_RuntimeError e); [by rewrite IH | done].
Qed.

Lemma op_func_listening op self esp :
  keeps listening (op_func esptool int_base0 op self esp).
Proof.
  pose proof listening_file_blind as Hb.
  destruct op as [erase_nvs| |partition|output_file kwargs]; simpl.
  - unfold start_app_func.
    apply keeps_bind; [by apply build_flash_files_keeps|]. intros plan.
    do 3 (apply keeps_bind; [apply keeps_getitem|]; intros ?).
    apply keeps_bind; [|intros _; apply keeps_ret].
    apply keeps_try_finally; [apply flash_loop_listening | by apply close_each_keeps].
  - unfold reset_func. apply keeps_bind; [apply esptool_do_listening | by intros _].
  - apply keeps_raise.
  - unfold dump_flush_func. apply keeps_bind.
    { apply keeps_if; [apply keeps_ret | by apply relpath_to_log_folder_keeps]. }
    intros out. apply keeps_bind; [by apply dump_region_keeps|].
    intros region. apply keeps_bind; [apply esptool_do_listening|]. intros content.
    apply keeps_bind; [by apply open_wb_keeps|]. intros h.
    apply keeps_bind; [|intros _; apply keeps_ret].
    by apply write_content_keeps.
Qed.

Lemma session_enter_listening (w : world Settings D) :
  listening (session_enter esptool w).2 = false.
Proof.
  unfold session_enter, bind, stop_receive, get_settings, esptool_do, ret. simpl.
  destruct (esptool (ESP32ROM (inr ())) _) as [[rom|e] [s1 d1]]; [|done].
  destruct (esptool (connect rom (Some "hard_reset")) _) as [[x|e] [s2 d2]]; [|done].
  by destruct (esptool (run_stub rom) _) as [[esp'|e] [s3 d3]].
Qed.

(** X6: a wrapped call that raises, in the connect, in the stub load or
    in the operation, leaves the listener stopped: the wrapper restarts
    it only after the operation has returned.  So for every operation and
    every device the listener runs after the call exactly when the call
    returned. *)
Theorem wrapped_call_restarts_listener_iff_returns self op (w : world Settings D) :
  let res := run_op esptool int_base0 self op w in
  listening res.2 = returns res.1.
Proof.
  intros res. unfold res. rewrite run_op_unfold, uses_esptool_unfold.
  pose proof (session_enter_listening w) as He.
  destruct (session_enter esptool w) as [[[settings esp]|e] w3]; simpl in *; [|done].
  pose proof (op_func_listening op self esp w3) as Ho.
  destruct (op_func esptool int_base0 op self esp w3) as [[v|e] w4]; simpl in *; congruence.
Qed.

(** *** The calls of each operation *)

Lemma emits_of_keeps {A} (P : call -> Prop) (m : Comp A) : keeps calls m -> emits P m.
Proof. intros H w. exists []. by rewrite H, app_nil_r. Qed.

Lemma emits_bind {A B} (P : call -> Prop) (m : Comp A) (k : A -> Comp B) :
  emits P m -> (forall a, emits P (k a)) -> emits P (bind m k).
Proof.
  intros Hm Hk w. unfold bind. destruct (Hm w) as (n1 & E1 & F1).
  destruct (m w) as [[a|e] w1]; simpl in *; [|by exists n1].
  destruct (Hk a w1) as (n2 & E2 & F2). exists (n1 ++ n2)%list.
  rewrite E2, E1, <- app_assoc. split; [done | by apply Forall_app].
Qed.

Lemma emits_try_finally {A} (P : call -> Prop) (m : Comp A) (fin : Comp unit) :
  emits P m -> emits P fin -> emits P (try_finally m fin).
Proof.
  intros Hm Hf w. unfold try_finally. destruct (Hm w) as (n1 & E1 & F1).
  destruct (m w) as [r w1]. destruct (Hf w1) as (n2 & E2 & F2).
  exists (n1 ++ n2)%list.
  destruct (fin w1) as [[u|e] w2]; simpl in *;
    (rewrite E2, E1, <- app_assoc; split; [done | by apply Forall_app]).
Qed.

Lemma emits_esptool_do (P : call -> Prop) c : P c -> emits P (esptool_do esptool c).
Proof.
  intros H w. exists [c]. unfold esptool_do.
  destruct (esptool c _) as [r [s d]]. split; [done | by constructor].
Qed.

Lemma flash_loop_emits (P : call -> Prop) esp args rates :
  (forall b, b ∈ rates -> P (change_baud esp b)) ->
  (forall images, P (write_flash esp args images)) ->
  emits P (flash_loop esptool esp args rates).
Proof.
  intros Hb Hw. induction rates as [|b rates IH].
  - apply emits_of_keeps, keeps_raise.
  - assert (Ha : emits P (speed_attempt esptool esp args b)).
    { unfold speed_attempt. apply emits_bind.
      - apply emits_esptool_do, Hb, list_elem_of_here.
      - intros _. apply emits_bind; [by apply emits_of_keeps|].
        intros images. apply emits_esptool_do, Hw. }
    intros w. rewrite flash_loop_unfold. destruct (Ha w) as (n1 & E1 & F1).
    destruct (speed_attempt esptool esp args b w) as [[v|e] w1]; simpl in *;
      [by exists n1|].
    destruct (isinstance_RuntimeError e); [|by exists n1].
    destruct (IH (fun b' H => Hb b' (list_elem_of_further _ _ _ H)) w1) as (n2 & E2 & F2).
    exists (n1 ++ n2)%list. rewrite E2, E1, <- app_assoc.
    split; [done | by apply Forall_app].
Qed.

Lemma op_func_emits op self esp :
  emits (allowed_call op esp) (op_func esptool int_base0 op self esp).
Proof.
  pose proof calls_file_blind as Hb.
  destruct op as [erase_nvs| |partition|output_file kwargs]; simpl.
  - unfold start_app_func.
    apply emits_bind; [by apply emits_of_keeps, build_flash_files_keeps|]. intros plan.
    do 3 (apply emits_bind; [apply emits_of_keeps, keeps_getitem|]; intros ?).
    apply emits_bind; [|intros _; apply emits_of_keeps, keeps_ret].
    apply emits_try_finally; [|by apply emits_of_keeps, close_each_keeps].
    apply flash_loop_emits.
    + intros b Hin. simpl. split; [done|].
      apply elem_of_cons in Hin as [->|Hin]; [by left|].
      apply elem_of_cons in Hin as [->|Hin]; [by right|].
      by apply elem_of_nil in Hin.
    + intros images. by simpl.
  - unfold reset_func. apply emits_bind; [by apply emits_esptool_do|].
    intros _. apply emits_of_keeps, keeps_ret.
  - apply emits_of_keeps, keeps_raise.
  - unfold dump_flush_func. apply emits_bind.
    { apply emits_of_keeps, keeps_if; [apply keeps_ret | by apply relpath_to_log_folder_keeps]. }
    intros out. apply emits_bind; [by apply emits_of_keeps, dump_region_keeps|].
    intros region. apply emits_bind; [by apply emits_esptool_do|]. intros content.
    apply emits_bind; [by apply emits_of_keeps, open_wb_keeps|]. intros h.
    apply emits_bind; [|intros _; apply emits_of_keeps, keeps_ret].
    by apply emits_of_keeps, write_content_keeps.
Qed.

(** X7: whatever the device answers, each operation makes only its own
    esptool calls on the loader it is given: [start_app] only changes the
    baud rate, to 921600 or 115200, and writes flash, compressed, with the
    stub, without verification and without encryption; [reset] only hard
    resets; [dump_flush] only reads flash; [erase_partition] makes no call
    at all. *)
Theorem operation_makes_only_its_calls op self esp (w : world Settings D) :
  exists new,
    calls (op_func esptool int_base0 op self esp w).2 = (calls w ++ new)%list /\
    Forall (allowed_call op esp) new.
Proof. apply op_func_emits. Qed.


End Frames.

(** ** More on the identity probe *)

Section ProbeEdges.

Context {Settings D : Type}.
Variable esptool : call -> Settings * D -> outcome pyval * (Settings * D).

(** X8: when the loader cannot even be constructed, the probe does not
    return None: whatever the constructor raised, a [RuntimeError]
    included, the [finally] clause reads the unbound [esp] and the probe
    raises [UnboundLocalError].  Nothing was opened and the constructor
    is the only esptool call. *)
Theorem get_mac_constructor_failure_raises app (port : string) (w : world Settings D) e sd :
  esptool (ESP32ROM (inl port)) (line w, device w) = (Raise e, sd) ->
  let res := get_mac esptool app port w in
  res.1 = Raise (UnboundLocalError "esp") /\
  serials res.2 = serials w /\
  calls res.2 = (calls w ++ [ESP32ROM (inl port)])%list.
Proof.
  intros H. unfold get_mac, ESP32ROM_of_port, bind, esptool_do. simpl.
  rewrite H. by destruct sd.
Qed.

(** X9: an exception of the connect or of the read that is no
    [RuntimeError] is not turned into None: the probe raises it, after it
    has closed the connection it opened. *)
Theorem get_mac_other_errors_propagate app (port : string) (w : world Settings D) rom sd1 :
  esptool (ESP32ROM (inl port)) (line w, device w) = (Return rom, sd1) ->
  let res := get_mac esptool app port w in
  let closed := (serials w ++ [{| s_port := port; s_closed := 1 |}])%list in
  (forall e sd2,
      esptool (connect rom None) sd1 = (Raise e, sd2) ->
      isinstance_RuntimeError e = false ->
      res.1 = Raise e /\ serials res.2 = closed) /\
  (forall x sd2 e sd3,
      esptool (connect rom None) sd1 = (Return x, sd2) ->
      esptool (read_mac rom) sd2 = (Raise e, sd3) ->
      isinstance_RuntimeError e = false ->
      res.1 = Raise e /\ serials res.2 = closed).
Proof.
  intros H. unfold get_mac, ESP32ROM_of_port, bind, esptool_do, new_serial, ret,
    try_finally, serial_close. simpl.
  rewrite H. destruct sd1 as [s1 d1]. simpl. split.
  - intros e [s2 d2] E1 R. rewrite E1. simpl. by rewrite R, alter_new.
  - intros x [s2 d2] e [s3 d3] E1 E2 R. rewrite E1. simpl. rewrite E2. simpl.
    by rewrite R, alter_new.
Qed.

(** X10: the probe makes at most three esptool calls, in this order: the
    constructor on the port name, the connect with the default reset mode,
    the read of the identifier.  It loads no stub, and it leaves the
    listener, the host files and the file objects as they were. *)
Theorem get_mac_calls_and_frame app (port : string) (w : world Settings D) :
  let res := get_mac esptool app port w in
  (exists rom k,
      calls res.2 = (calls w ++ take k [ESP32ROM (inl port); connect rom None; read_mac rom])%list /\
      (1 <= k <= 3)%nat) /\
  listening res.2 = listening w /\ fs res.2 = fs w /\ files res.2 = files w.
Proof.
  unfold get_mac, ESP32ROM_of_port, bind, esptool_do, new_serial, ret,
    try_finally, serial_close. simpl.
  destruct (esptool (ESP32ROM (inl port)) _) as [[rom|e0] [s1 d1]]; simpl.
  2:{ split; [|done]. exists PNone, 1%nat. split; [done | lia]. }
  destruct (esptool (connect rom None) (s1, d1)) as [[x|e1] [s2 d2]]; simpl.
  - destruct (esptool (read_mac rom) (s2, d2)) as [[mac|e2] [s3 d3]]; simpl;
      (split; [|done]); exists rom, 3%nat; rewrite <- !app_assoc; (split; [done | lia]).
  - split; [|done]. exists rom, 2%nat. rewrite <- !app_assoc. split; [done | lia].
Qed.

(** X11: [confirm_dut] answers False, and does not raise, for a port
    whose device fails the connect with a [RuntimeError], and True when
    the connect and the read return an identifier; either way the
    connection opened for the probe is closed. *)
Theorem confirm_dut_answers app (port : string) (w : world Settings D) rom sd1 :
  esptool (ESP32ROM (inl port)) (line w, device w) = (Return rom, sd1) ->
  let res := confirm_dut esptool port app w in
  let closed := (serials w ++ [{| s_port := port; s_closed := 1 |}])%list in
  (forall e sd2,
      esptool (connect rom None) sd1 = (Raise e, sd2) ->
      isinstance_RuntimeError e = true ->
      res.1 = Return false /\ serials res.2 = closed) /\
  (forall x sd2 mac sd3,
      esptool (connect rom None) sd1 = (Return x, sd2) ->
      esptool (read_mac rom) sd2 = (Return mac, sd3) ->
      mac <> PNone ->
      res.1 = Return true /\ serials res.2 = closed).
Proof.
  intros H. unfold confirm_dut, bind at 1. unfold get_mac, ESP32ROM_of_port, bind, esptool_do,
    new_serial, ret, try_finally, serial_close. simpl.
  rewrite H. destruct sd1 as [s1 d1]. simpl. split.
  - intros e [s2 d2] E1 R. rewrite E1. simpl. by rewrite R, alter_new.
  - intros x [s2 d2] mac [s3 d3] E1 E2 Hmac. rewrite E1. simpl. rewrite E2. simpl.
    rewrite alter_new. by destruct mac.
Qed.

End ProbeEdges.

Lemma get_mac_constructor_failure_raises_witness :
  (get_mac Scripted.esptool Scripted.app0 "/dev/ttyUSB9"
     (Scripted.world0 9600 [Raise (RuntimeError "could not open port")] ∅)).1
  = Raise (UnboundLocalError "esp").
Proof.
  refine (proj1 (get_mac_constructor_failure_raises Scripted.esptool Scripted.app0
            "/dev/ttyUSB9"
            (Scripted.world0 9600 [Raise (RuntimeError "could not open port")] ∅)
            (RuntimeError "could not open port") (9600, []) _)).
  reflexivity.
Defined.

Lemma get_mac_other_errors_propagate_witness :
  (get_mac Scripted.esptool Scripted.app0 "/dev/ttyUSB0"
     (Scripted.world0 9600 [Return (PObj 0); Raise (IOError "device disconnected")] ∅)).1
  = Raise (IOError "device disconnected").
Proof.
  refine (proj1 (proj1 (get_mac_other_errors_propagate Scripted.esptool Scripted.app0
            "/dev/ttyUSB0"
            (Scripted.world0 9600 [Return (PObj 0); Raise (IOError "device disconnected")] ∅)
            (PObj 0) (115200, [Raise (IOError "device disconnected")]) _)
          (IOError "device disconnected") (115200, []) _ _)); reflexivity.
Defined.

Lemma confirm_dut_answers_witness :
  (confirm_dut Scripted.esptool "/dev/ttyUSB0" Scripted.app0
     (Scripted.world0 9600 [Return (PObj 0); Raise (FatalError "Failed to connect")] ∅)).1
  = Return false.
Proof.
  refine (proj1 (proj1 (confirm_dut_answers Scripted.esptool Scripted.app0
            "/dev/ttyUSB0"
            (Scripted.world0 9600 [Return (PObj 0); Raise (FatalError "Failed to connect")] ∅)
            (PObj 0) (115200, [Raise (FatalError "Failed to connect")]) _)
          (FatalError "Failed to connect") (115200, []) _ _)); reflexivity.
Defined.

(** ** More on the wrapped operations *)

Section OperationEdges.

Context {Settings D : Type}.
Variable esptool : call -> Settings * D -> outcome pyval * (Settings * D).
Variable int_base0 : string -> option Z.

(** X12: [erase_partition] erases nothing: for every partition name and
    every device the call raises, with the listener left stopped and not
    one host file or file object touched; once the session is entered,
    what it raises is [NotImplementedError], and no esptool call follows
    the stub load. *)
Theorem erase_partition_always_raises self (partition : string) (w : world Settings D) :
  let res := erase_partition esptool self partition w in
  returns res.1 = false /\ listening res.2 = false /\
  fs res.2 = fs w /\ files res.2 = files w /\
  (forall settings esp w3,
      session_enter esptool w = (Return (settings, esp), w3) ->
      res = (Raise NotImplementedError, w3)).
Proof.
  intros res. unfold res, erase_partition. rewrite uses_esptool_unfold.
  pose proof (session_enter_listening esptool w) as Hl.
  destruct (session_enter esptool w) as [[[settings esp]|e] w3] eqn:Henter;
    destruct (session_enter_effects _ _ _ _ Henter) as (Hfs & Hfl & _);
    simpl in *; split_and!; try done.
  by intros ? ? ? [= <- <- <-].
Qed.

(** X13: once the session is entered, [reset] makes one more esptool
    call, the hard reset of the loader the stub load returned, and touches
    no file; when that call returns, [reset] returns None with the
    listener running and the settings of entry back on the line, and when
    it raises, [reset] raises the same. *)
Theorem reset_hard_resets_once self (w w3 : world Settings D) settings esp :
  session_enter esptool w = (Return (settings, esp), w3) ->
  let res := reset esptool self w in
  calls res.2 = (calls w3 ++ [hard_reset esp])%list /\
  fs res.2 = fs w /\ files res.2 = files w /\
  (forall v sd, esptool (hard_reset esp) (line w3, device w3) = (Return v, sd) ->
     res.1 = Return PNone /\ listening res.2 = true /\ line res.2 = line w /\
     device res.2 = sd.2) /\
  (forall e sd, esptool (hard_reset esp) (line w3, device w3) = (Raise e, sd) ->
     res.1 = Raise e).
Proof.
  intros Henter res. unfold res, reset. rewrite uses_esptool_unfold, Henter.
  destruct (session_enter_returns _ _ _ _ _ Henter) as (-> & _ & Hfs & Hfl & _).
  unfold reset_func, bind, esptool_do, ret.
  destruct (esptool (hard_reset esp) _) as [[v|e] [s d]]; simpl;
    split_and!; try done.
  - by intros ? ? [= <- <-].
  - by intros ? ? [= <- <-].
Qed.

(** X14: with [erase_nvs] true and the image segments opened, a partition
    table without "nvs" makes [start_app] raise [KeyError], and an "nvs"
    offset that [int(.., 0)] rejects makes it raise [ValueError]; in both
    cases before any transfer: no esptool call is made. *)
Theorem start_app_nvs_errors_before_transfer self esp (w w1 : world Settings D) segs :
  open_flash_files (flash_files (app self)) w = (Return segs, w1) ->
  let res := start_app_func esptool int_base0 true self esp w in
  (partition_table (app self) !! "nvs" = None ->
     res = (Raise (KeyError "nvs"), w1)) /\
  (forall nvs, partition_table (app self) !! "nvs" = Some nvs ->
     int_base0 (part_offset nvs) = None ->
     res.1 = Raise (ValueError (part_offset nvs))) /\
  (partition_table (app self) !! "nvs" = None \/
   (exists nvs, partition_table (app self) !! "nvs" = Some nvs /\
                int_base0 (part_offset nvs) = None) ->
   calls res.2 = calls w).
Proof.
  intros Hopen res.
  destruct (open_flash_files_returns _ _ _ _ Hopen) as (_ & _ & _ & Hcalls & _).
  unfold res, start_app_func, build_flash_files, bind. rewrite Hopen.
  unfold append_nvs, bind, getitem.
  destruct (partition_table (app self) !! "nvs") as [nvs|] eqn:Hnvs; simpl.
  - unfold f_write, f_seek, bind. simpl.
    destruct (int_base0 (part_offset nvs)) eqn:Hint; simpl.
    + split_and!; [done | intros ? [= <-] ?; congruence | ].
      intros [?|(? & [= <-] & ?)]; congruence.
    + split_and!; [done | by intros ? [= <-] ? | done].
  - split_and!; [done | done | done].
Qed.

(** X15: an exception of the first attempt that is no [RuntimeError] is
    not retried: [start_app] raises it after the one attempt at 921600. *)
Theorem start_app_other_errors_not_retried
    self esp (erase_nvs : bool) (w w0 : world Settings D) plan fsize fmode ffreq e :
  build_flash_files int_base0 self erase_nvs w = (Return plan, w0) ->
  flash_settings (app self) !! "flash_size" = Some fsize ->
  flash_settings (app self) !! "flash_mode" = Some fmode ->
  flash_settings (app self) !! "flash_freq" = Some ffreq ->
  let args := {| flash_size := fsize; flash_mode := fmode; flash_freq := ffreq;
                 addr_filename := plan;
                 no_stub := false; compress := true; verify := false; encrypt := false |} in
  (speed_attempt esptool esp args 921600 w0).1 = Raise e ->
  isinstance_RuntimeError e = false ->
  let res := start_app_func esptool int_base0 erase_nvs self esp w in
  res.1 = Raise e /\
  speeds (calls res.2) = (speeds (calls w0) ++ [921600])%list.
Proof.
  intros Hplan Hsize Hmode Hfreq args Hfirst He res.
  unfold res, start_app_func, bind, getitem. rewrite Hplan, Hsize, Hmode, Hfreq.
  unfold ret, try_finally. cbv beta iota. fold args.
  rewrite flash_loop_unfold.
  pose proof (speed_attempt_speeds esptool esp args 921600 w0) as H1.
  destruct (speed_attempt esptool esp args 921600 w0) as [[v1|e1] w1];
    cbn [fst snd] in *; [done|].
  injection Hfirst as ->. rewrite He.
  destruct (close_each_returns plan w1) as (w2 & -> & Hc). cbn [fst snd]. by rewrite Hc.
Qed.

(** X16: a missing flash setting makes [start_app] raise [KeyError] after
    the plan is built and before any transfer: no esptool call is made,
    and the sources of the plan are left as they were built, not closed. *)
Theorem start_app_missing_flash_setting
    self esp (erase_nvs : bool) (w w0 : world Settings D) plan (key : string) :
  build_flash_files int_base0 self erase_nvs w = (Return plan, w0) ->
  key ∈ ["flash_size"; "flash_mode"; "flash_freq"] ->
  flash_settings (app self) !! key = None ->
  exists k, start_app_func esptool int_base0 erase_nvs self esp w = (Raise (KeyError k), w0) /\
            k ∈ ["flash_size"; "flash_mode"; "flash_freq"] /\
            calls w0 = calls w.
Proof.
  intros Hplan Hkey Hnone.
  pose proof (build_flash_files_keeps int_base0 calls calls_file_blind self erase_nvs w) as Hc.
  rewrite Hplan in Hc. simpl in Hc.
  unfold start_app_func, bind, getitem. rewrite Hplan.
  destruct (flash_settings (app self) !! "flash_size") eqn:E1; simpl.
  2:{ exists "flash_size". split_and!; [done | repeat constructor | done]. }
  destruct (flash_settings (app self) !! "flash_mode") eqn:E2; simpl.
  2:{ exists "flash_mode". split_and!; [done | repeat constructor | done]. }
  destruct (flash_settings (app self) !! "flash_freq") eqn:E3; simpl.
  2:{ exists "flash_freq". split_and!; [done | repeat constructor | done]. }
  repeat (apply elem_of_cons in Hkey as [->|Hkey]; [congruence|]).
  by apply elem_of_nil in Hkey.
Qed.


(** X18: a partition name that the partition table does not hold is an
    error even when an address and a size are given as well: the call
    never returns, reads no flash and writes no file, and once the
    session is entered (with a non-empty output path) it raises
    [KeyError] on that name. *)
Theorem dump_flush_unknown_partition
    self (output_file key : string) (kwargs : gmap string pyval) (w : world Settings D) :
  kwargs !! "partition" = Some (PStr key) ->
  partition_table (app self) !! key = None ->
  let res := dump_flush esptool self output_file kwargs w in
  returns res.1 = false /\ fs res.2 = fs w /\ files res.2 = files w /\
  (exists new, calls res.2 = (calls w ++ new)%list /\ no_read_flash new = true) /\
  (forall settings esp w3,
      session_enter esptool w = (Return (settings, esp), w3) ->
      output_file <> "" ->
      res = (Raise (KeyError key), w3)).
Proof.
  intros Hp Hnone res. unfold res, dump_flush. rewrite uses_esptool_unfold.
  assert (Hr : forall w3 : world Settings D,
             dump_region self kwargs w3 = (Raise (KeyError key), w3)).
  { intros w3. unfold dump_region, bind, getitem. by rewrite Hp, Hnone. }
  destruct (session_enter esptool w) as [[[settings esp]|e] w3] eqn:Henter;
    destruct (session_enter_effects _ _ _ _ Henter) as (Hfs & Hfl & _ & Hcalls).
  - assert (Hf : exists e, dump_flush_func esptool output_file kwargs self esp w3 = (Raise e, w3) /\
                           (output_file <> "" -> e = KeyError key)).
    { unfold dump_flush_func, bind.
      destruct (posixpath.isabs output_file).
      - simpl. rewrite Hr. by eexists.
      - unfold relpath_to_log_folder.
        destruct (posixpath.relpath _ _ _) as [p|] eqn:E.
        + rewrite Hr. by eexists.
        + eexists. split; [done|]. intros Hne.
          destruct (relpath_nonempty (cwd w3) output_file (get_log_folder (app self)) Hne).
          congruence. }
    destruct Hf as (e & -> & He). simpl. split_and!; try done.
    intros ? ? ? [= <- <- <-] Hne. by rewrite (He Hne).
  - simpl. split_and!; try done.
Qed.

(** X19: the output file is opened only after the read: when the read
    raises, [dump_flush] raises the same and no file has been created or
    emptied, the host files and the file objects being as before. *)
Theorem dump_flush_failed_read_writes_nothing
    self (output_file : string) kwargs (w w3 : world Settings D) settings esp
    address size e sd :
  session_enter esptool w = (Return (settings, esp), w3) ->
  output_file <> "" ->
  dump_region self kwargs w3 = (Return (address, size), w3) ->
  esptool (read_flash esp address size) (line w3, device w3) = (Raise e, sd) ->
  let res := dump_flush esptool self output_file kwargs w in
  res.1 = Raise e /\ fs res.2 = fs w /\ files res.2 = files w /\
  calls res.2 = (calls w3 ++ [read_flash esp address size])%list.
Proof.
  intros Henter Hne Hregion Hread res.
  destruct (session_enter_returns _ _ _ _ _ Henter) as (-> & _ & Hfs & Hfl & Hcwd & _).
  unfold res, dump_flush. rewrite uses_esptool_unfold, Henter.
  destruct (dump_flush_func esptool output_file kwargs self esp w3) as [r w4] eqn:E.
  unfold dump_flush_func in E. unfold bind at 1 in E.
  destruct (dump_output_path self output_file w3 Hne) as [p Hp]. rewrite Hp in E.
  unfold bind at 1 in E. rewrite Hregion in E.
  unfold bind at 1 in E. unfold esptool_do in E. cbn [fst snd] in E. rewrite Hread in E.
  destruct sd as [s1 d1]. injection E as <- <-. by simpl.
Qed.

End OperationEdges.

(** Runs of the properties above on the scripted device. *)

Lemma reset_hard_resets_once_witness :
  calls (reset Scripted.esptool Scripted.dut0
           (Scripted.world0 9600 ScriptedEdges.entered ∅)).2
  = [ESP32ROM (inr tt); connect (PObj 0) (Some "hard_reset"); run_stub (PObj 0);
     hard_reset (PObj 1)].
Proof.
  exact (proj1 (reset_hard_resets_once Scripted.esptool Scripted.dut0
           (Scripted.world0 9600 ScriptedEdges.entered ∅)
           (session_enter Scripted.esptool (Scripted.world0 9600 ScriptedEdges.entered ∅)).2
           9600 (PObj 1) eq_refl)).
Defined.

Lemma start_app_nvs_errors_before_transfer_witness :
  (start_app_func Scripted.esptool Scripted.int_base0 true
     (ScriptedEdges.dut ScriptedEdges.app_without_nvs) (PObj 1)
     (Scripted.world0 9600 [] Scripted.fs0)).1
  = Raise (KeyError "nvs").
Proof.
  refine (f_equal fst (proj1 (start_app_nvs_errors_before_transfer Scripted.esptool
            Scripted.int_base0 (ScriptedEdges.dut ScriptedEdges.app_without_nvs) (PObj 1)
            (Scripted.world0 9600 [] Scripted.fs0)
            (open_flash_files (flash_files ScriptedEdges.app_without_nvs)
               (Scripted.world0 9600 [] Scripted.fs0)).2
            [(PInt 4096, 0%nat)] eq_refl) eq_refl)).
Defined.

Lemma start_app_other_errors_not_retried_witness :
  let res := start_app_func Scripted.esptool Scripted.int_base0 true Scripted.dut0 (PObj 1)
               (Scripted.world0 9600 [Raise (IOError "port closed")] Scripted.fs0) in
  res.1 = Raise (IOError "port closed") /\ speeds (calls res.2) = [921600].
Proof.
  exact (start_app_other_errors_not_retried Scripted.esptool Scripted.int_base0
           Scripted.dut0 (PObj 1) true
           (Scripted.world0 9600 [Raise (IOError "port closed")] Scripted.fs0)
           (build_flash_files Scripted.int_base0 Scripted.dut0 true
              (Scripted.world0 9600 [Raise (IOError "port closed")] Scripted.fs0)).2
           [(PInt 4096, 0%nat); (PInt 65536, 1%nat); (PInt 36864, 2%nat)]
           (PStr "4MB") (PStr "dio") (PStr "40m") (IOError "port closed")
           eq_refl eq_refl eq_refl eq_refl eq_refl eq_refl).
Defined.

Lemma start_app_missing_flash_setting_witness :
  exists k w0,
    start_app_func Scripted.esptool Scripted.int_base0 true
      (ScriptedEdges.dut ScriptedEdges.app_without_mode) (PObj 1)
      (Scripted.world0 9600 [] Scripted.fs0) = (Raise (KeyError k), w0).
Proof.
  destruct (start_app_missing_flash_setting Scripted.esptool Scripted.int_base0
              (ScriptedEdges.dut ScriptedEdges.app_without_mode) (PObj 1) true
              (Scripted.world0 9600 [] Scripted.fs0)
              (build_flash_files Scripted.int_base0
                 (ScriptedEdges.dut ScriptedEdges.app_without_mode) true
                 (Scripted.world0 9600 [] Scripted.fs0)).2
              [(PInt 4096, 0%nat); (PInt 36864, 1%nat)] "flash_mode")
    as (k & H & _).
  - reflexivity.
  - apply list_elem_of_further, list_elem_of_here.
  - reflexivity.
  - exists k. eexists. exact H.
Defined.


Lemma dump_flush_unknown_partition_witness :
  (dump_flush Scripted.esptool Scripted.dut0 "/tmp/dump.bin"
     {[ "partition" := PStr "factory"; "address" := PInt 0; "size" := PInt 16 ]}
     (Scripted.world0 9600 ScriptedEdges.entered ∅)).1
  = Raise (KeyError "factory").
Proof.
  refine (f_equal fst (proj2 (proj2 (proj2 (proj2
    (dump_flush_unknown_partition Scripted.esptool Scripted.dut0 "/tmp/dump.bin" "factory"
       {[ "partition" := PStr "factory"; "address" := PInt 0; "size" := PInt 16 ]}
       (Scripted.world0 9600 ScriptedEdges.entered ∅) eq_refl eq_refl))))
    9600 (PObj 1)
    (session_enter Scripted.esptool (Scripted.world0 9600 ScriptedEdges.entered ∅)).2
    eq_refl _)).
  discriminate.
Defined.

Lemma dump_flush_failed_read_writes_nothing_witness :
  let script := (ScriptedEdges.entered ++ [Raise (FatalError "Timed out")])%list in
  let res := dump_flush Scripted.esptool Scripted.dut0 "dump.bin"
               {[ "address" := PInt 4096; "size" := PInt 2 ]}
               (Scripted.world0 9600 script ∅) in
  res.1 = Raise (FatalError "Timed out") /\ fs res.2 = ∅.
Proof.
  intros script res.
  destruct (dump_flush_failed_read_writes_nothing Scripted.esptool Scripted.dut0
              "dump.bin" {[ "address" := PInt 4096; "size" := PInt 2 ]}
              (Scripted.world0 9600 script ∅)
              (session_enter Scripted.esptool (Scripted.world0 9600 script ∅)).2
              9600 (PObj 1) (PInt 4096) (PInt 2) (FatalError "Timed out") (115200, []))
    as (H1 & H2 & _).
  - reflexivity.
  - discriminate.
  - reflexivity.
  - reflexivity.
  - split; [exact H1 | exact H2].
Defined.

Section ClosingExactly.

Context {Settings D : Type}.
Variable esptool : call -> Settings * D -> outcome pyval * (Settings * D).
Variable int_base0 : string -> option Z.

(** X21: once the plan is built, however the flashing ends, leaving
    [start_app] has closed exactly the sources of the plan, each once: the
    file objects the call created are closed once more than when the plan
    was built, and the file objects that existed before the call are as
    they were. *)
Theorem start_app_closes_exactly_its_sources
    self esp (erase_nvs : bool) (w w0 : world Settings D) plan fsize fmode ffreq :
  build_flash_files int_base0 self erase_nvs w = (Return plan, w0) ->
  flash_settings (app self) !! "flash_size" = Some fsize ->
  flash_settings (app self) !! "flash_mode" = Some fmode ->
  flash_settings (app self) !! "flash_freq" = Some ffreq ->
  forall h f, files w0 !! h = Some f ->
    files (start_app_func esptool int_base0 erase_nvs self esp w).2 !! h
    = Some (if decide (length (files w) <= h)%nat then closed_once f else f).
Proof.
  intros Hplan Hsize Hmode Hfreq h f Hf.
  destruct (build_flash_files_sources _ _ _ _ _ _ Hplan) as (Hsrc & Hlen).
  pose proof (lookup_lt_Some _ _ _ Hf) as Hlt.
  assert (Hcount : count_occ Nat.eq_dec (map snd plan) h
                   = if decide (length (files w) <= h)%nat then 1%nat else 0%nat).
  { destruct (decide (length (files w) <= h)%nat) as [Hge|Hnge].
    - apply NoDup_count_occ'.
      + rewrite Hsrc. apply NoDup_ListNoDup, NoDup_seq.
      + apply list_elem_of_In. rewrite Hsrc. apply elem_of_seq. lia.
    - apply count_occ_not_In. rewrite <- list_elem_of_In, Hsrc, elem_of_seq. lia. }
  unfold start_app_func, bind, getitem. rewrite Hplan, Hsize, Hmode, Hfreq.
  unfold ret, try_finally. cbv beta iota.
  match goal with |- context [flash_loop esptool esp ?a ?r w0] =>
    pose proof (flash_loop_files esptool esp a r w0) as Hfl;
    destruct (flash_loop esptool esp a r w0) as [r1 w1] end.
  simpl in Hfl.
  pose proof (close_each_files plan w1 h) as Hcl.
  destruct (close_each_returns plan w1) as (w2 & E & _). rewrite E in Hcl |- *.
  simpl in Hcl. rewrite Hcount, Hfl, Hf in Hcl.
  destruct r1; simpl; rewrite Hcl; by destruct (decide _).
Qed.

End ClosingExactly.

Lemma start_app_closes_exactly_its_sources_witness :
  files (start_app_func Scripted.esptool Scripted.int_base0 true Scripted.dut0 (PObj 1)
           (Scripted.world0 9600 [Raise (IOError "port closed")] Scripted.fs0)).2 !! 2%nat
  = Some {| f_name := None; f_data := [xff; xff; xff; xff; xff; xff]; f_pos := 0;
            f_closed := 1 |}.
Proof.
  refine (start_app_closes_exactly_its_sources Scripted.esptool Scripted.int_base0
            Scripted.dut0 (PObj 1) true
            (Scripted.world0 9600 [Raise (IOError "port closed")] Scripted.fs0)
            (build_flash_files Scripted.int_base0 Scripted.dut0 true
               (Scripted.world0 9600 [Raise (IOError "port closed")] Scripted.fs0)).2
            [(PInt 4096, 0%nat); (PInt 65536, 1%nat); (PInt 36864, 2%nat)]
            (PStr "4MB") (PStr "dio") (PStr "40m") _ _ _ _ 2%nat
            {| f_name := None; f_data := [xff; xff; xff; xff; xff; xff]; f_pos := 0;
               f_closed := 0 |} _); reflexivity.
Defined.
